(** * stocks-automation: the decision and reconciliation pipeline

  A shallow embedding of the Python package [trading] (value scoring,
  trading window zones, inverse sector allocation, settlement tracking,
  signal generation, position sizing and the portfolio tracker),
  followed by the properties stated about it.

  Conventions of the embedding.
  - A Python [float] is an exact rational ([Q]); [==] is [Qeq].  Rounding
    error, infinities and NaN are outside the model.
  - A Python [int] is a [Z].
  - A [dict] is a [gmap]: [d.get(k)] is [d !! k], [d.get(k, x)] is
    [default x (d !! k)], [d[k] = v] is [<[k:=v]> d], [del d[k]] is
    [delete k d].  A key bound to [None] reads through [.get] like an
    absent key, so both are the absent key here.
  - [d.items()] and [d.values()] are [map_to_list d] and its second
    projection; nothing stated below depends on the iteration order.
  - The clock ([datetime.utcnow()]) and the files are explicit arguments
    and explicit state. *)

From Stdlib Require Import QArith Qround Qminmax ZArith Lia Lqa.
From stdpp Require Import base option list gmap strings fin_maps numbers sorting.

Open Scope Q_scope.

(** ** Python numbers *)

Module Py.

(** [x < y] on floats, as a boolean. *)
Definition ltb (x y : Q) : bool :=
  match x ?= y with Lt => true | _ => false end.

(** [x <= y] on floats, as a boolean. *)
Definition leb (x y : Q) : bool := Qle_bool x y.

(** [x > y] and [x >= y]. *)
Definition gtb (x y : Q) : bool := ltb y x.
Definition geb (x y : Q) : bool := leb y x.

(** The builtin [min(a, b)]: [b] when [b < a], else [a]. *)
Definition min (a b : Q) : Q := if ltb b a then b else a.

(** The builtin [max(a, b)]: [b] when [b > a], else [a]. *)
Definition max (a b : Q) : Q := if gtb b a then b else a.

(** The builtin [min(iterable)]: the first least element; [None] stands
    for the [ValueError] raised on an empty iterable. *)
Definition min_list (l : list Q) : option Q :=
  match l with
  | [] => None
  | x :: l' => Some (foldl min x l')
  end.

(** The builtin [sum(iterable)]: left to right, starting from 0. *)
Definition sum (l : list Q) : Q := foldl Qplus 0 l.

(** [d.values()]. *)
Definition values {K} `{Countable K} {A} (d : gmap K A) : list A :=
  (map_to_list d).*2.

(** [round(x, ndigits)]: the nearest multiple of [10^-ndigits], a tie
    going to the even one. *)
Definition round (x : Q) (ndigits : nat) : Q :=
  let unit := inject_Z (10 ^ Z.of_nat ndigits) in
  let scaled := x * unit in
  let f := Qfloor scaled in
  let n :=
    match (scaled - inject_Z f) ?= 1 # 2 with
    | Lt => f
    | Gt => (f + 1)%Z
    | Eq => if Z.even f then f else (f + 1)%Z
    end in
  inject_Z n / unit.

(** [a // b] on floats: the floor of the quotient. *)
Definition floordiv (a b : Q) : Q := inject_Z (Qfloor (a / b)).

(** [int(x)]: truncation toward zero. *)
Definition int (x : Q) : Z :=
  if ltb x 0 then Qceiling x else Qfloor x.

(** [numpy.mean] of a non-empty sequence. *)
Definition mean (l : list Q) : Q := sum l / inject_Z (Z.of_nat (length l)).

(** The slice [rows[-n:]]: the last [n] rows, all of them when there are
    fewer, and all of them when [n] is 0. *)
Definition last_rows {A} (n : nat) (rows : list A) : list A :=
  if (n =? 0)%nat then rows else drop (length rows - n) rows.

(** [range(0, stop, step)] for a positive step. *)
Definition range_step (stop step : nat) : list nat :=
  (λ k, k * step)%nat <$> seq 0 ((stop + step - 1) / step).

(** A file read at start-up: absent, unreadable, or holding a value. *)
Inductive FileState (A : Type) :=
| Absent
| Corrupt
| Stored (content : A).
Arguments Absent {A}.
Arguments Corrupt {A}.
Arguments Stored {A} content.

End Py.

Infix "<?" := Py.ltb (at level 70) : Q_scope.
Infix "<=?" := Py.leb (at level 70) : Q_scope.
Infix ">?" := Py.gtb (at level 70) : Q_scope.
Infix ">=?" := Py.geb (at level 70) : Q_scope.

#[global] Instance Qeq_decision (x y : Q) : Decision (x == y) := Qeq_dec x y.

(** ** config.py *)

Module Config.

(** Value scoring weights. *)
Definition SCORE_WEIGHT_PE : Q := 0.25.
Definition SCORE_WEIGHT_EPS_GROWTH : Q := 0.25.
Definition SCORE_WEIGHT_REVENUE_GROWTH : Q := 0.15.
Definition SCORE_WEIGHT_PROFIT_MARGIN : Q := 0.10.
Definition SCORE_WEIGHT_DEBT_EQUITY : Q := 0.10.
Definition SCORE_WEIGHT_FAIR_VALUE_GAP : Q := 0.15.

Definition FUNDAMENTAL_GATE_THRESHOLD : Q := 40.

(** Window position thresholds. *)
Definition STRONG_BUY_THRESHOLD : Q := 0.20.
Definition BUY_THRESHOLD : Q := 0.35.
Definition SELL_THRESHOLD : Q := 0.65.
Definition STRONG_SELL_THRESHOLD : Q := 0.80.

(** Sector rotation. *)
Definition SECTOR_MIN_ALLOCATION : Q := 0.15.
Definition SECTOR_MAX_ALLOCATION : Q := 0.55.

(** Portfolio and risk. *)
Definition MAX_POSITIONS : Z := 20.
Definition MAX_POSITION_PCT : Q := 0.05.

(** Signal generator. *)
Definition BUY_SCORE_THRESHOLD : Q := 60.
Definition STRONG_BUY_SCORE_THRESHOLD : Q := 70.
Definition SELL_SCORE_THRESHOLD : Q := 50.
Definition COLLAPSE_SCORE_THRESHOLD : Q := 30.

(** E*TRADE API. *)
Definition QUOTE_BATCH_SIZE : nat := 25.

(** Sector performance and wash sales. *)
Definition SECTOR_PERF_PERIOD_DAYS : nat := 60.
Definition WASH_SALE_LOSS_THRESHOLD : Q := 100.
Definition WASH_SALE_BLOCK_DAYS : Z := 30.

End Config.

(** ** universe.py *)

Module Universe.

Definition TECH : list string :=
  [ "AAPL"; "MSFT"; "GOOGL"; "AMZN"; "NVDA"; "META"; "AVGO"; "CRM";
    "ADBE"; "AMD"; "INTC"; "CSCO"; "ORCL"; "TXN"; "QCOM"; "IBM"; "MU" ].

Definition ENERGY : list string :=
  [ "XOM"; "CVX"; "COP"; "SLB"; "EOG"; "MPC"; "PSX"; "VLO";
    "OXY"; "HAL"; "DVN"; "FANG"; "HES"; "BKR"; "KMI"; "WMB"; "OKE" ].

Definition MINERALS : list string :=
  [ "NEM"; "GOLD"; "FNV"; "WPM"; "AEM"; "GFI"; "KGC"; "AU";
    "RGLD"; "AGI"; "FCX"; "SCCO"; "TECK"; "BHP"; "RIO"; "NUE" ].

(** The dict [SECTORS], in the order it is written. *)
Definition SECTORS_items : list (string * list string) :=
  [ ("Tech", TECH); ("Energy", ENERGY); ("Minerals", MINERALS) ].

Definition SECTORS : gmap string (list string) := list_to_map SECTORS_items.

Definition ALL_SYMBOLS : list string := TECH ++ ENERGY ++ MINERALS.

(** The reverse lookup, filled by the two nested loops over [SECTORS]. *)
Definition SYMBOL_TO_SECTOR : gmap string string :=
  foldl (λ m '(sector, symbols), foldl (λ m sym, <[sym := sector]> m) m symbols)
        ∅ SECTORS_items.

Definition SECTOR_NAMES : list string := SECTORS_items.*1.

End Universe.

(** ** value_scorer.py *)

Module ValueScorer.
Import Config.

Definition NEUTRAL : Q := 50.

Definition _score_pe (pe : option Q) : Q :=
  match pe with
  | None => NEUTRAL
  | Some pe =>
      if pe <=? 0 then NEUTRAL
      else if pe <? 10 then 100
      else if pe <? 15 then 85
      else if pe <? 20 then 70
      else if pe <? 25 then 55
      else if pe <? 30 then 40
      else if pe <? 40 then 25
      else 10
  end.

Definition _score_eps_growth (growth : option Q) : Q :=
  match growth with
  | None => NEUTRAL
  | Some growth =>
      let pct := growth * 100 in
      if pct >? 30 then 100
      else if pct >? 20 then 85
      else if pct >? 10 then 70
      else if pct >? 5 then 60
      else if pct >? 0 then 45
      else if pct >? -10 then 30
      else 10
  end.

Definition _score_revenue_growth (growth : option Q) : Q :=
  match growth with
  | None => NEUTRAL
  | Some growth =>
      let pct := growth * 100 in
      if pct >? 25 then 100
      else if pct >? 15 then 85
      else if pct >? 10 then 70
      else if pct >? 5 then 55
      else if pct >? 0 then 40
      else if pct >? -5 then 25
      else 10
  end.

Definition _score_profit_margin (margin : option Q) : Q :=
  match margin with
  | None => NEUTRAL
  | Some margin =>
      let pct := margin * 100 in
      if pct >? 30 then 100
      else if pct >? 20 then 85
      else if pct >? 15 then 70
      else if pct >? 10 then 55
      else if pct >? 5 then 40
      else if pct >? 0 then 25
      else 10
  end.

Definition _score_debt_equity (de : option Q) : Q :=
  match de with
  | None => NEUTRAL
  | Some de =>
      if de <? 20 then 100
      else if de <? 50 then 85
      else if de <? 80 then 70
      else if de <? 120 then 55
      else if de <? 180 then 40
      else if de <? 250 then 25
      else 10
  end.

Definition _score_fair_value_gap (current_price analyst_target : option Q) : Q :=
  match current_price, analyst_target with
  | Some current_price, Some analyst_target =>
      if analyst_target <=? 0 then NEUTRAL
      else
        let gap_pct := (analyst_target - current_price) / analyst_target * 100 in
        if gap_pct >? 30 then 100
        else if gap_pct >? 20 then 85
        else if gap_pct >? 10 then 70
        else if gap_pct >? 5 then 55
        else if gap_pct >? 0 then 40
        else if gap_pct >? -10 then 25
        else 10
  | _, _ => NEUTRAL
  end.

(** The weighted sum of the six sub-scores, before clamping and rounding. *)
Definition weighted_score (fundamentals : gmap string Q) : Q :=
  let pe_score := _score_pe (fundamentals !! "pe") in
  let eps_score := _score_eps_growth (fundamentals !! "eps_growth") in
  let rev_score := _score_revenue_growth (fundamentals !! "revenue_growth") in
  let margin_score := _score_profit_margin (fundamentals !! "profit_margin") in
  let de_score := _score_debt_equity (fundamentals !! "debt_equity") in
  let fv_score :=
    _score_fair_value_gap (fundamentals !! "current_price")
                          (fundamentals !! "analyst_target") in
  SCORE_WEIGHT_PE * pe_score
  + SCORE_WEIGHT_EPS_GROWTH * eps_score
  + SCORE_WEIGHT_REVENUE_GROWTH * rev_score
  + SCORE_WEIGHT_PROFIT_MARGIN * margin_score
  + SCORE_WEIGHT_DEBT_EQUITY * de_score
  + SCORE_WEIGHT_FAIR_VALUE_GAP * fv_score.

Definition compute_value_score (fundamentals : gmap string Q) : Q :=
  Py.round (Py.min 100 (Py.max 0 (weighted_score fundamentals))) 2.

Definition passes_fundamental_gate (score : Q) : bool :=
  score >=? FUNDAMENTAL_GATE_THRESHOLD.

(** [score_all]: every symbol's record is scored. *)
Definition score_all (fundamentals_by_symbol : gmap string (gmap string Q))
  : gmap string Q :=
  compute_value_score <$> fundamentals_by_symbol.

End ValueScorer.

(** ** trading_window.py *)

Module TradingWindow.
Import Config.

Record WindowResult := {
  symbol : string;
  center : Q;
  upper : Q;
  lower : Q;
  current_price : Q;
  position : Q;
  z_score : Q;
  volatility : Q;
}.

(** The five window signals. *)
Inductive WindowSignal := STRONG_BUY | BUY | HOLD | SELL | STRONG_SELL.

#[global] Instance WindowSignal_eq_dec : EqDecision WindowSignal.
Proof. solve_decision. Defined.

Definition get_window_signal (window : option WindowResult) : WindowSignal :=
  match window with
  | None => HOLD
  | Some window =>
      let p := position window in
      if p <? STRONG_BUY_THRESHOLD then STRONG_BUY
      else if p <? BUY_THRESHOLD then BUY
      else if p >? STRONG_SELL_THRESHOLD then STRONG_SELL
      else if p >? SELL_THRESHOLD then SELL
      else HOLD
  end.

End TradingWindow.

(** ** sector_rotation.py *)

Module SectorRotation.
Import Config Universe.

(** Step 4 of the allocation, for one sector. *)
Definition clamp (v : Q) : Q :=
  Py.max SECTOR_MIN_ALLOCATION (Py.min SECTOR_MAX_ALLOCATION v).

(** Steps 1 to 4: the clamped fractions, before the last normalisation. *)
Definition clamped_allocations (performances : gmap string Q) : gmap string Q :=
  (* Step 1: negate so worst performer has highest value *)
  let inverted := Qopp <$> performances in
  (* Step 2: shift to positive *)
  let min_val := default 0 (Py.min_list (Py.values inverted)) in
  let shifted := (λ v, v - min_val + 0.01) <$> inverted in
  (* Step 3: normalise *)
  let total := Py.sum (Py.values shifted) in
  let alloc := (λ v, v / total) <$> shifted in
  (* Step 4: clamp *)
  clamp <$> alloc.

Definition compute_sector_allocations (performances : gmap string Q)
  : gmap string Q :=
  if decide (performances = ∅) then
    (* Equal weight fallback *)
    let n := inject_Z (Z.of_nat (length SECTOR_NAMES)) in
    list_to_map ((λ s, (s, 1 / n)) <$> SECTOR_NAMES)
  else
    let alloc := clamped_allocations performances in
    (* Step 5: re-normalise after clamping *)
    let total := Py.sum (Py.values alloc) in
    (λ v, v / total) <$> alloc.

(** [compute_sector_performance]; [historical] maps a symbol to the
    [Close] column of its data frame, oldest first (a symbol whose frame is
    [None] is an absent key). *)
Definition compute_sector_performance (historical : gmap string (list Q))
    (period : nat) : gmap string Q :=
  let sector_returns : gmap string (list Q) :=
    list_to_map ((λ s, (s, [])) <$> SECTOR_NAMES) in
  let sector_returns :=
    foldl (λ sector_returns '(sym, df),
             if (length df <? 2)%nat then sector_returns
             else
               match SYMBOL_TO_SECTOR !! sym with
               | None => sector_returns
               | Some sector =>
                   let closes := Py.last_rows period df in
                   if (length closes <? 2)%nat then sector_returns
                   else
                     match head closes, last closes with
                     | Some first, Some final =>
                         let ret := (final - first) / first in
                         alter (λ returns, returns ++ [ret]) sector
                               sector_returns
                     | _, _ => sector_returns
                     end
               end)
          sector_returns (map_to_list historical) in
  (λ returns, match returns with [] => 0 | _ => Py.mean returns end)
    <$> sector_returns.

End SectorRotation.

(** ** risk_manager.py *)

Module RiskManager.
Import Config.

(** A calendar day, as the number of the day.  The source keeps days as
    [%Y-%m-%d] strings and compares the strings; such strings order like
    the days they name. *)
Abbreviation day := Z (only parsing).

(** [record_sale_proceeds] on [SettlementTracker.pending], the dict from
    settlement day to amount pending; [today] is the day of
    [datetime.utcnow()]. *)
Definition record_sale_proceeds (today : day) (amount : Q) (pending : gmap day Q)
  : gmap day Q :=
  let settle_date := (today + 1)%Z in
  <[settle_date := default 0 (pending !! settle_date) + amount]> pending.

(** One turn of the loop of [get_unavailable_cash] over
    [self.pending.items()]. *)
Definition unavailable_step (today : day) (acc : Q * list day) (item : day * Q)
  : Q * list day :=
  let '(total, expired) := acc in
  let '(date_str, amount) := item in
  if bool_decide (today < date_str)%Z then (total + amount, expired)
  else (total, expired ++ [date_str]).

(** [get_unavailable_cash]: the total pending, and the tracker with the
    settled entries deleted. *)
Definition get_unavailable_cash (today : day) (pending : gmap day Q)
  : Q * gmap day Q :=
  let '(total, expired) :=
    foldl (unavailable_step today) (0, []) (map_to_list pending) in
  (* Clean up settled entries *)
  (total, foldl (λ p d, delete d p) pending expired).

(** An instant of [datetime.utcnow()], in microseconds.  The source keeps
    an expiry as its ISO string and parses it back before comparing. *)
Abbreviation instant := Z (only parsing).

Definition microseconds_per_day : Z := 86400000000.

(** The day of an instant. *)
Definition day_of (now : instant) : day := (now `div` microseconds_per_day)%Z.

(** [WashSaleTracker]: the dict [blocked] from symbol to expiry, and the
    wash sale file. *)
Record WashSaleTracker := {
  blocked : gmap string Z;
  wash_sale_file : Py.FileState (gmap string Z);
}.

(** [WashSaleTracker.__init__], which is [_load] on an empty dict. *)
Definition WashSaleTracker_init (file : Py.FileState (gmap string Z))
  : WashSaleTracker :=
  {| blocked := match file with Py.Stored content => content | _ => ∅ end;
     wash_sale_file := file |}.

Definition _save (self : WashSaleTracker) : WashSaleTracker :=
  {| blocked := blocked self; wash_sale_file := Py.Stored (blocked self) |}.

Definition record_sale (now : instant) (symbol : string) (loss : Q)
    (self : WashSaleTracker) : WashSaleTracker :=
  if loss >=? WASH_SALE_LOSS_THRESHOLD then
    let expiry := (now + WASH_SALE_BLOCK_DAYS * microseconds_per_day)%Z in
    _save {| blocked := <[symbol := expiry]> (blocked self);
             wash_sale_file := wash_sale_file self |}
  else self.

Definition _purge_expired (now : instant) (self : WashSaleTracker)
  : WashSaleTracker :=
  let expired :=
    (filter (λ item : string * Z, (item.2 ≤ now)%Z)
            (map_to_list (blocked self))).*1 in
  let self' :=
    {| blocked := foldl (λ b s, delete s b) (blocked self) expired;
       wash_sale_file := wash_sale_file self |} in
  match expired with
  | [] => self'
  | _ => _save self'
  end.

Definition is_blocked (now : instant) (symbol : string)
    (self : WashSaleTracker) : bool * WashSaleTracker :=
  let self := _purge_expired now self in
  (bool_decide (is_Some (blocked self !! symbol)), self).

Definition get_blocked_symbols (now : instant) (self : WashSaleTracker)
  : list string * WashSaleTracker :=
  let self := _purge_expired now self in
  ((map_to_list (blocked self)).*1, self).

Record RiskFlags := {
  wash_sale_blocked : bool;
  max_positions_reached : bool;
}.

(** [get_risk_flags], given the answer of [wash_tracker.is_blocked]. *)
Definition get_risk_flags (is_blocked : bool) (num_positions : Z) : RiskFlags :=
  {| wash_sale_blocked := is_blocked;
     max_positions_reached := (MAX_POSITIONS <=? num_positions)%Z |}.

(** [get_risk_flags] on the tracker itself: the flags, and the tracker
    after the purge that [is_blocked] runs. *)
Definition get_risk_flags_of (now : instant) (symbol : string)
    (num_positions : Z) (wash_tracker : WashSaleTracker)
  : RiskFlags * WashSaleTracker :=
  let '(b, wash_tracker) := is_blocked now symbol wash_tracker in
  (get_risk_flags b num_positions, wash_tracker).

End RiskManager.

(** ** signal_generator.py *)

Module SignalGenerator.
Import Config Universe TradingWindow RiskManager ValueScorer.

(** Actions returned by the signal generator. *)
Inductive Action := ACTION_BUY | ACTION_STRONG_BUY | ACTION_SELL | ACTION_HOLD.

#[global] Instance Action_eq_dec : EqDecision Action.
Proof. solve_decision. Defined.

(** The reason of a signal.  The source renders each as a sentence with
    the score and the window signal filled in; the constructor and its
    arguments are what the sentence holds. *)
Inductive Reason :=
| FundamentalsCollapsed (score : Q)
| SellZoneWeakValue (score : Q) (window : WindowSignal)
| StrongSellZone (window : WindowSignal) (score : Q)
| BelowFundamentalGate (score : Q)
| WashSaleBlocked
| MaxPositionsReached
| StrongBuy (score : Q)
| Buy (score : Q) (window : WindowSignal)
| Hold (score : Q) (window : WindowSignal).

Record Signal := {
  symbol : string;
  action : Action;
  reason : Reason;
  priority : Q;
  value_score : Q;
  window_signal : WindowSignal;
  sector : string;
}.

Definition generate_signal (symbol : string) (value_score : Q)
    (window : option WindowResult) (sector_allocation : Q)
    (is_held : bool) (risk_flags : RiskFlags) : Signal :=
  let sector := default "Unknown" (SYMBOL_TO_SECTOR !! symbol) in
  let w_signal := get_window_signal window in
  let mk a r p := Build_Signal symbol a r p value_score w_signal sector in
  let hold := mk ACTION_HOLD (Hold value_score w_signal) 0 in
  if is_held then
    (* SELL signals (check first for held positions) *)
    if value_score <? COLLAPSE_SCORE_THRESHOLD then
      mk ACTION_SELL (FundamentalsCollapsed value_score) 90
    else if bool_decide (w_signal = SELL ∨ w_signal = STRONG_SELL)
            && (value_score <? SELL_SCORE_THRESHOLD) then
      mk ACTION_SELL (SellZoneWeakValue value_score w_signal) 80
    else if bool_decide (w_signal = STRONG_SELL) then
      mk ACTION_SELL (StrongSellZone w_signal value_score) 70
    else hold
  else
    (* BUY signals (only if not already held) *)
    if negb (passes_fundamental_gate value_score) then
      mk ACTION_HOLD (BelowFundamentalGate value_score) 0
    else if wash_sale_blocked risk_flags then
      mk ACTION_HOLD WashSaleBlocked 0
    else if max_positions_reached risk_flags then
      mk ACTION_HOLD MaxPositionsReached 0
    else if (value_score >=? STRONG_BUY_SCORE_THRESHOLD)
            && bool_decide (w_signal = STRONG_BUY) then
      mk ACTION_STRONG_BUY (StrongBuy value_score) 100
    else if (value_score >=? BUY_SCORE_THRESHOLD)
            && bool_decide (w_signal = BUY ∨ w_signal = STRONG_BUY) then
      mk ACTION_BUY (Buy value_score w_signal) (60 + value_score / 10)
    else hold.

(** [list.sort(key=..., reverse=True)]: the builtin sort is stable, and
    with [reverse=True] elements of equal key keep their order.  Insertion
    from the right, each element going before the first one whose key is
    not greater than its own. *)
Fixpoint insert_desc {A} (key : A → Q) (x : A) (l : list A) : list A :=
  match l with
  | [] => [x]
  | y :: l' => if key x <? key y then y :: insert_desc key x l' else x :: l
  end.

Definition sort_desc {A} (key : A → Q) (l : list A) : list A :=
  foldr (insert_desc key) [] l.

(** The signal of one symbol, as the loop of [generate_all_signals]
    computes it. *)
Definition signal_of (value_scores : gmap string Q)
    (windows : gmap string WindowResult) (sector_allocations : gmap string Q)
    (held_symbols : gset string) (risk_flags_by_symbol : gmap string RiskFlags)
    (sym : string) : Signal :=
  let score := default 50 (value_scores !! sym) in
  let window := windows !! sym in
  let sector := default "Unknown" (SYMBOL_TO_SECTOR !! sym) in
  let alloc := default 0.33 (sector_allocations !! sector) in
  let is_held := bool_decide (sym ∈ held_symbols) in
  let flags :=
    default {| wash_sale_blocked := false; max_positions_reached := false |}
            (risk_flags_by_symbol !! sym) in
  generate_signal sym score window alloc is_held flags.

(** The list [signals] before it is sorted. *)
Definition actionable_signals (value_scores : gmap string Q)
    (windows : gmap string WindowResult) (sector_allocations : gmap string Q)
    (held_symbols : gset string) (risk_flags_by_symbol : gmap string RiskFlags)
  : list Signal :=
  filter (λ signal, action signal ≠ ACTION_HOLD)
    (signal_of value_scores windows sector_allocations held_symbols
               risk_flags_by_symbol <$> ALL_SYMBOLS).

Definition generate_all_signals (value_scores : gmap string Q)
    (windows : gmap string WindowResult) (sector_allocations : gmap string Q)
    (held_symbols : gset string) (risk_flags_by_symbol : gmap string RiskFlags)
  : list Signal :=
  sort_desc priority
    (actionable_signals value_scores windows sector_allocations held_symbols
                        risk_flags_by_symbol).

End SignalGenerator.

(** ** order_executor.py *)

Module OrderExecutor.
Import Config.

Definition compute_position_size (symbol : string) (price portfolio_value : Q)
    (sector_allocation : Q) (num_sector_stocks : Z) : Z :=
  if (price <=? 0) || (portfolio_value <=? 0) then 0%Z
  else
    let sector_budget := portfolio_value * sector_allocation in
    let per_stock_budget :=
      sector_budget / inject_Z (Z.max num_sector_stocks 1) in
    (* Cap at 5% of portfolio *)
    let max_budget := portfolio_value * MAX_POSITION_PCT in
    let budget := Py.min per_stock_budget max_budget in
    let qty := Py.int (Py.floordiv budget price) in
    Z.max qty 0.

(** An entry of the trade log.  The replay reads the four fields below;
    the timestamp, the rounded total, the reason and the sector that
    [SimExecutor] also writes are read by nothing modelled here. *)
Record Trade := {
  action : string;
  symbol : string;
  quantity : Z;
  price : Q;
}.

(** [SimExecutor.execute_buy] and [execute_sell]: the entry appended to
    the log; the price is logged rounded to cents. *)
Definition execute_buy (trades : list Trade) (symbol : string) (quantity : Z)
    (price : Q) : list Trade :=
  trades ++ [ {| action := "BUY"; symbol := symbol; quantity := quantity;
                 price := Py.round price 2 |} ].

Definition execute_sell (trades : list Trade) (symbol : string) (quantity : Z)
    (price : Q) : list Trade :=
  trades ++ [ {| action := "SELL"; symbol := symbol; quantity := quantity;
                 price := Py.round price 2 |} ].

(** The broker session as [RealExecutor] uses it.  [preview_order] answers
    [None] for an empty dict, and otherwise the list under ["PreviewIds"]
    (empty when the key is absent); [place_order] answers [None] for an
    empty dict and otherwise the response.  Arguments: symbol, action,
    quantity, limit price. *)
Record Session (R : Type) := {
  preview_order : string → string → Z → Q → option (list string);
  place_order : list string → string → string → Z → Q → option R;
}.
Arguments preview_order {R}.
Arguments place_order {R}.

(** A request sent to the broker. *)
Inductive ApiCall :=
| PreviewCall (symbol action : string) (quantity : Z) (limit_price : Q)
| PlaceCall (preview_ids : list string) (symbol action : string)
            (quantity : Z) (limit_price : Q).

(** What [RealExecutor._execute] returns. *)
Inductive Outcome (R : Type) :=
| Error (error : string)
| Placed (action symbol : string) (quantity : Z) (price : Q)
         (order_response : R).
Arguments Error {R}.
Arguments Placed {R}.

(** [RealExecutor._execute]: the outcome and the requests sent, in order. *)
Definition _execute {R} (session : Session R) (action symbol : string)
    (quantity : Z) (price : Q) : Outcome R * list ApiCall :=
  (* Step 1: Preview *)
  let limit_price := Py.round price 2 in
  let calls := [PreviewCall symbol action quantity limit_price] in
  match preview_order session symbol action quantity limit_price with
  | None => (Error "preview_failed", calls)
  | Some [] => (Error "no_preview_ids", calls)
  | Some preview_ids =>
      (* Step 2: Place *)
      let calls :=
        calls ++ [PlaceCall preview_ids symbol action quantity limit_price] in
      match place_order session preview_ids symbol action quantity
                        limit_price with
      | None => (Error "place_failed", calls)
      | Some result => (Placed action symbol quantity price result, calls)
      end
  end.

Definition real_execute_buy {R} (session : Session R) (symbol : string)
    (quantity : Z) (price : Q) : Outcome R * list ApiCall :=
  _execute session "BUY" symbol quantity price.

Definition real_execute_sell {R} (session : Session R) (symbol : string)
    (quantity : Z) (price : Q) : Outcome R * list ApiCall :=
  _execute session "SELL" symbol quantity price.

End OrderExecutor.

(** ** portfolio_tracker.py *)

Module PortfolioTracker.
Import OrderExecutor.

(** A holding.  The replay of the trade log writes [qty] and [avg_cost];
    the sync from the broker also writes the two others.  [None] is an
    absent key.  Both syncs write [avg_cost], so the default of
    [holding.get("avg_cost", 0)] in [update_market_values] is never
    taken on a state they built. *)
Record Holding := {
  qty : Z;
  avg_cost : Q;
  market_value : option Q;
  total_gain : option Q;
}.

(** The three fields of the tracker; the state file holds the same
    three. *)
Record PortfolioState := {
  holdings : gmap string Holding;
  cash : Q;
  total_value : Q;
}.

(** The tracker together with the portfolio state file; [None] is a file
    that does not exist. *)
Record World := {
  tracker : PortfolioState;
  portfolio_state_file : option PortfolioState;
}.

Definition save (w : World) : World :=
  {| tracker := tracker w; portfolio_state_file := Some (tracker w) |}.

(** What the broker answers: the balance, and one record per position. *)
Record Balance := {
  cashBuyingPower : option Q;
  totalAccountValue : option Q;
}.

Record Position := {
  (** [None]: [Product] is absent or empty; [Some s]: it is not, and [s]
      is its ["symbol"] entry. *)
  Product : option (option string);
  symbolDescription : option string;
  quantity : option Z;
  pricePaid : option Q;
  marketValue : option Q;
  totalGain : option Q;
}.

Definition position_symbol (pos : Position) : option string :=
  match Product pos with
  | Some sym => sym
  | None => Some (default EmptyString (symbolDescription pos))
  end.

Definition sync_from_api (balance : Balance) (positions : list Position)
    (w : World) : World :=
  let cash := default 0 (cashBuyingPower balance) in
  let total_value := default 0 (totalAccountValue balance) in
  let holdings :=
    foldl (λ holdings pos,
             match position_symbol pos with
             | None | Some EmptyString => holdings
             | Some sym =>
                 <[sym := {| qty := default 0%Z (quantity pos);
                             avg_cost := default 0 (pricePaid pos);
                             market_value := Some (default 0 (marketValue pos));
                             total_gain := Some (default 0 (totalGain pos)) |}]>
                   holdings
             end) ∅ positions in
  save {| tracker := {| holdings := holdings; cash := cash;
                        total_value := total_value |};
          portfolio_state_file := portfolio_state_file w |}.

(** The trade log on disk. *)
Inductive TradesFile :=
| NoFile
| Unreadable
| Log (trades : list Trade).

(** One turn of the replay loop, on the pair of [self.holdings] and
    [self.cash]. *)
Definition replay_trade (st : gmap string Holding * Q) (trade : Trade)
  : gmap string Holding * Q :=
  let '(holdings, cash) := st in
  let sym := OrderExecutor.symbol trade in
  let qty_ := OrderExecutor.quantity trade in
  let price := OrderExecutor.price trade in
  if String.eqb (action trade) "BUY" then
    let cost := inject_Z qty_ * price in
    let cash := cash - cost in
    match holdings !! sym with
    | Some old =>
        let total_qty := (qty old + qty_)%Z in
        let total_cost := avg_cost old * inject_Z (qty old) + cost in
        (<[sym := {| qty := total_qty;
                     avg_cost := if bool_decide (total_qty ≠ 0%Z)
                                 then total_cost / inject_Z total_qty else 0;
                     market_value := None; total_gain := None |}]> holdings,
         cash)
    | None =>
        (<[sym := {| qty := qty_; avg_cost := price;
                     market_value := None; total_gain := None |}]> holdings,
         cash)
    end
  else if String.eqb (action trade) "SELL" then
    let proceeds := inject_Z qty_ * price in
    let cash := cash + proceeds in
    match holdings !! sym with
    | Some old =>
        let left := (qty old - qty_)%Z in
        if bool_decide (left ≤ 0)%Z then (delete sym holdings, cash)
        else (<[sym := {| qty := left; avg_cost := avg_cost old;
                          market_value := market_value old;
                          total_gain := total_gain old |}]> holdings,
              cash)
    | None => (holdings, cash)
    end
  else (holdings, cash).

Definition replay (trades : list Trade) (st : gmap string Holding * Q)
  : gmap string Holding * Q :=
  foldl replay_trade st trades.

Definition holdings_value (holdings : gmap string Holding) : Q :=
  Py.sum ((λ h, inject_Z (qty h) * avg_cost h) <$> Py.values holdings).

Definition default_initial_cash : Q := 100000.

Definition sync_from_sim (trades_file : TradesFile) (initial_cash : Q)
    (w : World) : World :=
  match trades_file with
  | NoFile =>
      save {| tracker := {| holdings := ∅; cash := initial_cash;
                            total_value := initial_cash |};
              portfolio_state_file := portfolio_state_file w |}
  | _ =>
      let trades :=
        match trades_file with Log trades => trades | _ => [] end in
      let '(holdings, cash) := replay trades (∅, initial_cash) in
      (* Total value = cash + sum of holdings at avg cost (approximate) *)
      save {| tracker := {| holdings := holdings; cash := cash;
                            total_value := cash + holdings_value holdings |};
              portfolio_state_file := portfolio_state_file w |}
  end.

Definition update_market_values (live_prices : gmap string Q) (w : World)
  : World :=
  let self := tracker w in
  let holdings_value :=
    foldl (λ holdings_value '(sym, holding),
             match live_prices !! sym with
             | Some price => holdings_value + inject_Z (qty holding) * price
             | None => holdings_value + inject_Z (qty holding) * avg_cost holding
             end) 0 (map_to_list (holdings self)) in
  {| tracker := {| holdings := holdings self; cash := cash self;
                   total_value := cash self + holdings_value |};
     portfolio_state_file := portfolio_state_file w |}.

Definition get_held_symbols (w : World) : gset string :=
  dom (holdings (tracker w)).

Definition num_positions (w : World) : Z :=
  Z.of_nat (size (holdings (tracker w))).

Definition get_position (symbol : string) (w : World) : option Holding :=
  holdings (tracker w) !! symbol.

End PortfolioTracker.

(** ** main.py *)

Module Main.
Import Config Universe RiskManager SignalGenerator OrderExecutor PortfolioTracker.

(** The buy branch of step 11 of [run], for one signal with a live price:
    the quantity handed to [execute_buy] ([None] when no order is placed),
    and the settlement tracker afterwards. *)
Definition buy_branch (today : day) (sig_symbol : string) (price : Q)
    (allocations : gmap string Q) (portfolio : PortfolioState)
    (settlement : gmap day Q) : option Z * gmap day Q :=
  let sector := default "Tech" (SYMBOL_TO_SECTOR !! sig_symbol) in
  let num_in_sector := Z.of_nat (length (default [] (SECTORS !! sector))) in
  let alloc := default 0.33 (allocations !! sector) in
  let qty :=
    compute_position_size sig_symbol price (total_value portfolio) alloc
                          num_in_sector in
  if (0 <? qty)%Z then
    (* Check cash availability *)
    let cost := inject_Z qty * price in
    let '(unavailable, settlement) := get_unavailable_cash today settlement in
    let avail := cash portfolio - unavailable in
    let qty := if cost >? avail then Py.int (Py.floordiv avail price) else qty in
    if (0 <? qty)%Z then (Some qty, settlement) else (None, settlement)
  else (None, settlement).

(** The sell branch of step 11 of [run] in SIM mode, for one signal with a
    live price: the trade log, the wash sale tracker and the settlement
    tracker afterwards.  [now] is the instant of the calls of
    [datetime.utcnow()]. *)
Definition sell_branch (now : instant) (sig_symbol : string) (price : Q)
    (portfolio : PortfolioState) (trades : list Trade)
    (wash_tracker : WashSaleTracker) (settlement : gmap day Q)
  : list Trade * WashSaleTracker * gmap day Q :=
  match holdings portfolio !! sig_symbol with
  | Some pos =>
      if (0 <? qty pos)%Z then
        let qty := qty pos in
        let trades := execute_sell trades sig_symbol qty price in
        (* Track wash sale *)
        let loss := (avg_cost pos - price) * inject_Z qty in
        let wash_tracker :=
          if loss >=? WASH_SALE_LOSS_THRESHOLD
          then record_sale now sig_symbol loss wash_tracker
          else wash_tracker in
        (* Track settlement *)
        let settlement :=
          record_sale_proceeds (day_of now) (inject_Z qty * price) settlement in
        (trades, wash_tracker, settlement)
      else (trades, wash_tracker, settlement)
  | None => (trades, wash_tracker, settlement)
  end.

End Main.

(** ** api_wrapper.py *)

Module ApiWrapper.
Import Config.

(** The batches of [get_quotes]: [symbols[i : i + QUOTE_BATCH_SIZE]] for
    [i] in [range(0, len(symbols), QUOTE_BATCH_SIZE)]. *)
Definition quote_batches (symbols : list string) : list (list string) :=
  (λ i, take QUOTE_BATCH_SIZE (drop i symbols))
    <$> Py.range_step (length symbols) QUOTE_BATCH_SIZE.

(** One [QuoteData] of a response: the symbol of its [Product], and the
    numbers of its [All] section. *)
Record QuoteData := {
  Product_symbol : option string;
  All : gmap string Q;
}.

(** [get_quotes]; [get] is the HTTP request for one batch, [None] when the
    status is not 200, else the [QuoteData] list of the response. *)
Definition get_quotes (get : list string → option (list QuoteData))
    (symbols : list string) : gmap string QuoteData :=
  foldl (λ result batch,
           match get batch with
           | None => result
           | Some quote_data =>
               foldl (λ result qd,
                        match Product_symbol qd with
                        | None | Some EmptyString => result
                        | Some sym => <[sym := qd]> result
                        end) result quote_data
           end) ∅ (quote_batches symbols).

End ApiWrapper.

(** * Vocabulary of the properties *)

Module Vocabulary.
Import Config ValueScorer.

(** The bands named for the sub-scores, and the ones the EPS growth
    scorer uses. *)
Definition BANDS : list Q := [10; 25; 40; 55; 70; 85; 100].
Definition EPS_BANDS : list Q := [10; 30; 45; 60; 70; 85; 100].

(** The result is the neutral 50 or one of [bands]. *)
Definition neutral_or_in (bands : list Q) (r : Q) : Prop :=
  r == NEUTRAL ∨ Exists (Qeq r) bands.

#[global] Instance neutral_or_in_dec bands r : Decision (neutral_or_in bands r).
Proof. unfold neutral_or_in. apply _. Defined.

(** The record of the example. *)
Definition example_fundamentals : gmap string Q :=
  <["pe" := 12]> (<["eps_growth" := 0.25]> (<["revenue_growth" := 0.20]>
  (<["profit_margin" := 0.22]> (<["debt_equity" := 15]>
  (<["current_price" := 100]> (<["analyst_target" := 140]> ∅)))))).

(** Three sectors, one of which fell while the two others rose. *)
Definition example_performances : gmap string Q :=
  <["Tech" := -0.10]> (<["Energy" := 0.05]> (<["Minerals" := 0.05]> ∅)).

(** The entries of the settlement tracker dated strictly after [today]. *)
Definition unsettled (today : RiskManager.day) (pending : gmap Z Q) : gmap Z Q :=
  filter (λ item : Z * Q, (today < item.1)%Z) pending.

(** A tracker with one older entry, and the day of the example sale. *)
Definition example_pending : gmap Z Q :=
  <[739001%Z := 250]> (<[738999%Z := 75]> ∅).
Definition example_day : RiskManager.day := 739000%Z.

(** A portfolio whose cash is small next to its total value, and the
    allocations of a cycle. *)
Definition example_portfolio : PortfolioTracker.PortfolioState :=
  {| PortfolioTracker.holdings := ∅;
     PortfolioTracker.cash := 1000;
     PortfolioTracker.total_value := 100000 |}.

Definition example_allocations : gmap string Q :=
  <["Tech" := 0.40]> (<["Energy" := 0.30]> (<["Minerals" := 0.30]> ∅)).

(** The state file holds the state of the tracker. *)
Definition persisted (w : PortfolioTracker.World) : Prop :=
  PortfolioTracker.portfolio_state_file w = Some (PortfolioTracker.tracker w).

(** A fresh tracker with no state file. *)
Definition fresh_world : PortfolioTracker.World :=
  {| PortfolioTracker.tracker :=
       {| PortfolioTracker.holdings := ∅; PortfolioTracker.cash := 0;
          PortfolioTracker.total_value := 0 |};
     PortfolioTracker.portfolio_state_file := None |}.

(** Trades of the examples: a buy of ten shares, a sale of shares that
    are not held, and a buy that costs more than the initial cash. *)
Definition example_buy : OrderExecutor.Trade :=
  {| OrderExecutor.action := "BUY"; OrderExecutor.symbol := "AAPL";
     OrderExecutor.quantity := 10; OrderExecutor.price := 100 |}.

Definition example_sell : OrderExecutor.Trade :=
  {| OrderExecutor.action := "SELL"; OrderExecutor.symbol := "XOM";
     OrderExecutor.quantity := 5; OrderExecutor.price := 10 |}.

Definition example_big_buy : OrderExecutor.Trade :=
  {| OrderExecutor.action := "BUY"; OrderExecutor.symbol := "NEM";
     OrderExecutor.quantity := 2000; OrderExecutor.price := 100 |}.

(** The tracker after the replay of the one buy, and a later quote. *)
Definition example_world : PortfolioTracker.World :=
  PortfolioTracker.sync_from_sim (PortfolioTracker.Log [example_buy])
    PortfolioTracker.default_initial_cash fresh_world.

Definition example_live_prices : gmap string Q := <["AAPL" := 110]> ∅.

(** A cycle in which AAPL is cheap and well scored, and XOM is held with
    collapsed fundamentals. *)
Definition example_window (sym : string) (position : Q)
  : TradingWindow.WindowResult :=
  {| TradingWindow.symbol := sym; TradingWindow.center := 100;
     TradingWindow.upper := 105; TradingWindow.lower := 95;
     TradingWindow.current_price := 95 + 10 * position;
     TradingWindow.position := position;
     TradingWindow.z_score := 0; TradingWindow.volatility := 0.2 |}.

Definition example_scores : gmap string Q :=
  <["AAPL" := 80]> (<["XOM" := 25]> ∅).

Definition example_windows : gmap string TradingWindow.WindowResult :=
  <["AAPL" := example_window "AAPL" 0.1]>
    (<["XOM" := example_window "XOM" 0.5]> ∅).

Definition example_held : gset string := {["XOM"]}.

(** A restart of the process would load the blocks the tracker holds. *)
Definition survives_restart (self : RiskManager.WashSaleTracker) : Prop :=
  RiskManager.blocked
    (RiskManager.WashSaleTracker_init (RiskManager.wash_sale_file self))
  = RiskManager.blocked self.

(** The thirty days of a wash sale block, in microseconds. *)
Definition block_duration : Z :=
  (Config.WASH_SALE_BLOCK_DAYS * RiskManager.microseconds_per_day)%Z.

(** A tracker started without a file, and an instant. *)
Definition example_wash_tracker : RiskManager.WashSaleTracker :=
  RiskManager.WashSaleTracker_init Py.Absent.

Definition example_now : Z := 1700000000000000.

(** What a trade of the log adds to the cash. *)
Definition cash_flow (trade : OrderExecutor.Trade) : Q :=
  if String.eqb (OrderExecutor.action trade) "BUY" then
    - (inject_Z (OrderExecutor.quantity trade) * OrderExecutor.price trade)
  else if String.eqb (OrderExecutor.action trade) "SELL" then
    inject_Z (OrderExecutor.quantity trade) * OrderExecutor.price trade
  else 0.

(** The budget of one position, before it is cut to whole shares. *)
Definition position_budget (portfolio_value sector_allocation : Q)
    (num_sector_stocks : Z) : Q :=
  Py.min (portfolio_value * sector_allocation
          / inject_Z (Z.max num_sector_stocks 1))
         (portfolio_value * Config.MAX_POSITION_PCT).

(** The three errors of the live executor. *)
Definition executor_errors : list string :=
  ["preview_failed"; "no_preview_ids"; "place_failed"].

(** What a holding is worth at its average cost. *)
Definition worth (h : PortfolioTracker.Holding) : Q :=
  inject_Z (PortfolioTracker.qty h) * PortfolioTracker.avg_cost h.

(** Every holding has a positive quantity. *)
Definition positive_holdings (hs : gmap string PortfolioTracker.Holding)
  : Prop :=
  map_Forall (λ _ h, (0 < PortfolioTracker.qty h)%Z) hs.

(** A broker that previews every order and accepts none. *)
Definition example_session : OrderExecutor.Session string :=
  {| OrderExecutor.preview_order := λ _ _ _ _, Some ["7861"];
     OrderExecutor.place_order := λ _ _ _ _ _, None |}.

(** [a] may stand before [b] in a list sorted by descending [key]. *)
Definition desc {A} (key : A → Q) (a b : A) : Prop := key b <= key a.

End Vocabulary.

Import Vocabulary.

(** * Properties *)

(** ** Comparisons and sums *)

Section PyFacts.

Lemma ltb_lt (x y : Q) : (x <? y) = true ↔ x < y.
Proof.
  unfold Py.ltb. rewrite Qlt_alt. destruct (x ?= y); intuition congruence.
Qed.

Lemma ltb_ge (x y : Q) : (x <? y) = false ↔ y <= x.
Proof.
  rewrite <- not_true_iff_false, ltb_lt. split.
  - apply Qnot_lt_le.
  - apply Qle_not_lt.
Qed.

Lemma leb_le (x y : Q) : (x <=? y) = true ↔ x <= y.
Proof. apply Qle_bool_iff. Qed.

Lemma leb_gt (x y : Q) : (x <=? y) = false ↔ y < x.
Proof.
  rewrite <- not_true_iff_false, leb_le. split.
  - apply Qnot_le_lt.
  - apply Qlt_not_le.
Qed.

Lemma min_spec (a b : Q) : Py.min a b <= a ∧ Py.min a b <= b.
Proof.
  unfold Py.min. destruct (b <? a) eqn:E.
  - apply ltb_lt in E. split; [by apply Qlt_le_weak | apply Qle_refl].
  - apply ltb_ge in E. split; [apply Qle_refl | done].
Qed.

Lemma max_spec (a b : Q) : a <= Py.max a b ∧ b <= Py.max a b.
Proof.
  unfold Py.max, Py.gtb. destruct (a <? b) eqn:E.
  - apply ltb_lt in E. split; [by apply Qlt_le_weak | apply Qle_refl].
  - apply ltb_ge in E. split; [apply Qle_refl | done].
Qed.

Lemma foldl_plus_shift (l : list Q) (a : Q) : foldl Qplus a l == a + Py.sum l.
Proof.
  unfold Py.sum. revert a. induction l as [|x l IH]; intros a; simpl.
  - ring.
  - rewrite (IH (a + x)), (IH (0 + x)). ring.
Qed.

Lemma sum_cons (x : Q) (l : list Q) : Py.sum (x :: l) == x + Py.sum l.
Proof. unfold Py.sum at 1. simpl. rewrite foldl_plus_shift. ring. Qed.

Lemma sum_nil : Py.sum [] == 0.
Proof. reflexivity. Qed.

Lemma sum_app (l k : list Q) : Py.sum (l ++ k) == Py.sum l + Py.sum k.
Proof.
  induction l as [|x l IH]; simpl.
  - rewrite sum_nil. ring.
  - rewrite !sum_cons, IH. ring.
Qed.

Lemma sum_perm (l k : list Q) : l ≡ₚ k → Py.sum l == Py.sum k.
Proof.
  induction 1 as [|x l k _ IH|x y l|l k m _ IH1 _ IH2].
  - reflexivity.
  - by rewrite !sum_cons, IH.
  - rewrite !sum_cons. ring.
  - by rewrite IH1.
Qed.

Lemma sum_scale (c : Q) (l : list Q) :
  Py.sum ((λ v, v / c) <$> l) == Py.sum l / c.
Proof.
  induction l as [|x l IH]; simpl.
  - rewrite sum_nil. unfold Qdiv. ring.
  - rewrite !sum_cons, IH. unfold Qdiv. ring.
Qed.

Lemma sum_lower_bound (b : Q) (l : list Q) :
  Forall (λ v, b <= v) l → inject_Z (Z.of_nat (length l)) * b <= Py.sum l.
Proof.
  induction 1 as [|x l Hx _ IH]; simpl length.
  - rewrite sum_nil. simpl. ring_simplify. apply Qle_refl.
  - rewrite sum_cons, Nat2Z.inj_succ, <- Z.add_1_r, inject_Z_plus.
    ring_simplify. rewrite Qplus_comm.
    apply Qplus_le_compat; [done|]. by ring_simplify in IH.
Qed.

End PyFacts.

(** ** Value scoring *)

Section ValueScorerFacts.
Import Config ValueScorer.

Ltac score_cases :=
  repeat match goal with
         | |- context [if ?b then _ else _] => destruct b
         end;
  try (left; reflexivity);
  right; unfold BANDS, EPS_BANDS;
  repeat first [ apply Exists_cons_hd; reflexivity | apply Exists_cons_tl ].

Lemma score_pe_bands pe : neutral_or_in BANDS (_score_pe pe).
Proof. destruct pe; unfold _score_pe; score_cases. Qed.

Lemma score_eps_growth_bands g : neutral_or_in EPS_BANDS (_score_eps_growth g).
Proof. destruct g; unfold _score_eps_growth; score_cases. Qed.

Lemma score_revenue_growth_bands g :
  neutral_or_in BANDS (_score_revenue_growth g).
Proof. destruct g; unfold _score_revenue_growth; score_cases. Qed.

Lemma score_profit_margin_bands m :
  neutral_or_in BANDS (_score_profit_margin m).
Proof. destruct m; unfold _score_profit_margin; score_cases. Qed.

Lemma score_debt_equity_bands de : neutral_or_in BANDS (_score_debt_equity de).
Proof. destruct de; unfold _score_debt_equity; score_cases. Qed.

Lemma score_fair_value_gap_bands cp tgt :
  neutral_or_in BANDS (_score_fair_value_gap cp tgt).
Proof. destruct cp, tgt; unfold _score_fair_value_gap; score_cases. Qed.

(** C5, as amended: five of the six scorers return the neutral 50 or a
    value of {10,25,40,55,70,85,100}; the EPS growth scorer returns the
    neutral 50 or a value of {10,30,45,60,70,85,100}. *)
Theorem sub_scores_in_bands (pe eps rev margin de cp tgt : option Q) :
  neutral_or_in BANDS (_score_pe pe)
  ∧ neutral_or_in EPS_BANDS (_score_eps_growth eps)
  ∧ neutral_or_in BANDS (_score_revenue_growth rev)
  ∧ neutral_or_in BANDS (_score_profit_margin margin)
  ∧ neutral_or_in BANDS (_score_debt_equity de)
  ∧ neutral_or_in BANDS (_score_fair_value_gap cp tgt).
Proof.
  repeat split.
  - apply score_pe_bands.
  - apply score_eps_growth_bands.
  - apply score_revenue_growth_bands.
  - apply score_profit_margin_bands.
  - apply score_debt_equity_bands.
  - apply score_fair_value_gap_bands.
Qed.

(** C5, as stated, fails: an EPS growth of 7% scores 60, which is neither
    50 nor one of {10,25,40,55,70,85,100}. *)
Lemma eps_growth_score_outside_bands :
  _score_eps_growth (Some 0.07) == 60
  ∧ ¬ neutral_or_in BANDS (_score_eps_growth (Some 0.07)).
Proof.
  split; [reflexivity|].
  apply (bool_decide_eq_false_1 (neutral_or_in BANDS _)). by vm_compute.
Qed.

(** C4, as amended: on the example record the debt/equity sub-score is
    100 and the five others are 85, and the composite score is 86.5. *)
Theorem example_value_score :
  _score_pe (example_fundamentals !! "pe") == 85
  ∧ _score_eps_growth (example_fundamentals !! "eps_growth") == 85
  ∧ _score_revenue_growth (example_fundamentals !! "revenue_growth") == 85
  ∧ _score_profit_margin (example_fundamentals !! "profit_margin") == 85
  ∧ _score_debt_equity (example_fundamentals !! "debt_equity") == 100
  ∧ _score_fair_value_gap (example_fundamentals !! "current_price")
                          (example_fundamentals !! "analyst_target") == 85
  ∧ compute_value_score example_fundamentals == 86.5.
Proof. repeat split; vm_compute; reflexivity. Qed.

(** C4, as stated, fails: the composite score of the example record is
    below 90, and its P/E sub-score is not in the top bracket. *)
Lemma example_value_score_below_90 :
  ¬ (_score_pe (example_fundamentals !! "pe") == 100
     ∧ 90 <= compute_value_score example_fundamentals).
Proof. intros [_ H]. vm_compute in H. by apply H. Qed.

End ValueScorerFacts.

(** ** Sector allocation *)

Section SectorRotationFacts.
Import Config Universe SectorRotation.

Lemma values_fmap {A B} (f : A → B) (d : gmap string A) :
  Py.values (f <$> d) = f <$> Py.values d.
Proof.
  unfold Py.values. rewrite map_to_list_fmap, <- !list_fmap_compose.
  by apply list_fmap_ext.
Qed.

Lemma values_nonempty {A} (d : gmap string A) :
  d ≠ ∅ → (0 < length (Py.values d))%nat.
Proof.
  intros Hd. unfold Py.values. rewrite length_fmap.
  destruct (map_to_list d) eqn:E; [|simpl; lia].
  by apply map_to_list_empty_iff in E.
Qed.

Lemma clamp_band (v : Q) :
  SECTOR_MIN_ALLOCATION <= clamp v ∧ clamp v <= SECTOR_MAX_ALLOCATION.
Proof.
  unfold clamp. split; [apply max_spec|].
  unfold Py.max, Py.gtb.
  destruct (_ <? _); [apply min_spec | by vm_compute].
Qed.

(** The sum of the clamped fractions is positive. *)
Lemma clamped_total_pos (performances : gmap string Q) :
  performances ≠ ∅ →
  0 < Py.sum (Py.values (clamped_allocations performances)).
Proof.
  intros Hne. unfold clamped_allocations.
  set (alloc := (λ v, v / _) <$> _).
  assert (Hn : (0 < length (Py.values (clamp <$> alloc)))%nat).
  { rewrite values_fmap, length_fmap. unfold alloc.
    rewrite !values_fmap, !length_fmap. by apply values_nonempty. }
  eapply Qlt_le_trans; [|apply (sum_lower_bound SECTOR_MIN_ALLOCATION)].
  - apply Qmult_lt_0_compat; [|by vm_compute].
    change 0 with (inject_Z 0). rewrite <- Zlt_Qlt. lia.
  - rewrite values_fmap. apply Forall_fmap, Forall_true.
    intros v. apply clamp_band.
Qed.

(** C1, as amended: for a non-empty performance map the fractions sum
    to 1, and every fraction is a value of the band
    [SECTOR_MIN_ALLOCATION, SECTOR_MAX_ALLOCATION] divided by the sum of
    the clamped values; the band holds before the last normalisation,
    not after it. *)
Theorem sector_allocations_sum_and_scaled_band
    (performances : gmap string Q) (s : string) (v : Q) :
  performances ≠ ∅ →
  compute_sector_allocations performances !! s = Some v →
  Py.sum (Py.values (compute_sector_allocations performances)) == 1
  ∧ 0 < Py.sum (Py.values (clamped_allocations performances))
  ∧ SECTOR_MIN_ALLOCATION
      / Py.sum (Py.values (clamped_allocations performances)) <= v
  ∧ v <= SECTOR_MAX_ALLOCATION
           / Py.sum (Py.values (clamped_allocations performances)).
Proof.
  intros Hne Hs. pose proof (clamped_total_pos _ Hne) as HT.
  unfold compute_sector_allocations in *.
  destruct (decide (performances = ∅)) as [|_]; [done|].
  set (T := Py.sum (Py.values (clamped_allocations performances))) in *.
  split; [|split; [done|]].
  - rewrite values_fmap, sum_scale. apply Qmult_inv_r.
    intros H0. rewrite H0 in HT. by apply Qlt_irrefl in HT.
  - rewrite lookup_fmap in Hs.
    destruct (clamped_allocations performances !! s) as [c|] eqn:Hc;
      [|done].
    injection Hs as <-.
    assert (Hband : SECTOR_MIN_ALLOCATION <= c ∧ c <= SECTOR_MAX_ALLOCATION).
    { unfold clamped_allocations in Hc. rewrite lookup_fmap in Hc.
      destruct (_ !! s); [|done]. injection Hc as <-. apply clamp_band. }
    destruct Hband as [Hlo Hhi]. unfold Qdiv. split.
    + apply Qmult_le_compat_r; [done|].
      apply Qlt_le_weak, Qinv_lt_0_compat, HT.
    + apply Qmult_le_compat_r; [done|].
      apply Qlt_le_weak, Qinv_lt_0_compat, HT.
Qed.

Lemma sector_allocations_sum_and_scaled_band_witness :
  example_performances ≠ ∅
  ∧ compute_sector_allocations example_performances !! "Tech"
    = Some (55000000 # 85000000)
  ∧ Py.sum (Py.values (compute_sector_allocations example_performances)) == 1.
Proof.
  assert (H1 : example_performances ≠ ∅) by (by vm_compute).
  assert (H2 : compute_sector_allocations example_performances !! "Tech"
               = Some (55000000 # 85000000)) by (by vm_compute).
  split; [done|]. split; [done|].
  apply (sector_allocations_sum_and_scaled_band _ _ _ H1 H2).
Defined.

(** C1, as stated, fails: on the example the fractions are 11/17, 3/17
    and 3/17, and 11/17 lies above SECTOR_MAX_ALLOCATION. *)
Lemma sector_allocation_above_band :
  ∃ v, compute_sector_allocations example_performances !! "Tech" = Some v
       ∧ v == 11 # 17
       ∧ ¬ (SECTOR_MIN_ALLOCATION <= v ∧ v <= SECTOR_MAX_ALLOCATION).
Proof.
  eexists. split; [by vm_compute|]. split; [reflexivity|].
  intros [_ H]. vm_compute in H. by apply H.
Qed.

End SectorRotationFacts.

(** ** Settlement *)

Section SettlementFacts.
Import RiskManager.

Lemma values_sum_insert (d : gmap Z Q) (k : Z) (v : Q) :
  Py.sum (Py.values (<[k:=v]> d)) == v + Py.sum (Py.values (delete k d)).
Proof.
  rewrite <- (insert_delete_eq d). unfold Py.values.
  rewrite (sum_perm _ (((k, v) :: map_to_list (delete k d)).*2)).
  - simpl. apply sum_cons.
  - apply fmap_Permutation, map_to_list_insert, lookup_delete_eq.
Qed.

Lemma values_sum_delete (d : gmap Z Q) (k : Z) :
  Py.sum (Py.values d) == default 0 (d !! k) + Py.sum (Py.values (delete k d)).
Proof.
  destruct (d !! k) as [v|] eqn:E; simpl.
  - unfold Py.values.
    rewrite <- (sum_perm _ _ (fmap_Permutation snd _ _ (map_to_list_delete d k v E))).
    simpl. apply sum_cons.
  - rewrite delete_id by done. ring.
Qed.

(** The loop of [get_unavailable_cash], from any accumulator. *)
Lemma unavailable_loop (today : day) (l : list (day * Q)) (total : Q)
    (expired : list day) :
  foldl (unavailable_step today) (total, expired) l
  = (foldl Qplus total (filter (λ item, (today < item.1)%Z) l).*2,
     expired ++ (filter (λ item, ¬ (today < item.1)%Z) l).*1).
Proof.
  revert total expired. induction l as [|[d a] l IH]; intros total expired.
  - simpl. by rewrite app_nil_r.
  - simpl foldl. rewrite !filter_cons. simpl.
    case_bool_decide as Hd.
    + rewrite IH. destruct (decide (today < d)%Z); [|done].
      destruct (decide (¬ (today < d)%Z)); done.
    + rewrite IH. destruct (decide (today < d)%Z); [done|].
      destruct (decide (¬ (today < d)%Z)); [|done].
      simpl. by rewrite <- app_assoc.
Qed.

Lemma foldl_delete_lookup (ks : list day) (d : gmap day Q) (k : day) :
  foldl (λ p key, delete key p) d ks !! k
  = if decide (k ∈ ks) then None else d !! k.
Proof.
  revert d. induction ks as [|x ks IH]; intros d; simpl.
  - destruct (decide (k ∈ [])) as [H|_]; [by apply elem_of_nil in H|done].
  - rewrite IH. destruct (decide (k ∈ ks)) as [Hin|Hout].
    + rewrite decide_True; [done|by right].
    + destruct (decide (k = x)) as [->|Hne].
      * rewrite lookup_delete_eq, decide_True; [done|by left].
      * rewrite lookup_delete_ne by done.
        rewrite decide_False; [done|].
        intros [?|?]%elem_of_cons; done.
Qed.

(** [get_unavailable_cash] keeps the unsettled entries and returns their
    total. *)
Lemma get_unavailable_cash_unsettled (today : day) (pending : gmap day Q) :
  (get_unavailable_cash today pending).2 = unsettled today pending
  ∧ (get_unavailable_cash today pending).1
    == Py.sum (Py.values (unsettled today pending)).
Proof.
  unfold get_unavailable_cash. rewrite unavailable_loop. simpl. split.
  - apply map_eq. intros k. rewrite foldl_delete_lookup. unfold unsettled.
    destruct (decide _) as [Hin|Hout].
    + symmetry. apply map_lookup_filter_None.
      apply list_elem_of_fmap in Hin as [[k' a] [-> Hin]].
      apply list_elem_of_filter in Hin as [Hk Hin]. simpl in *.
      apply elem_of_map_to_list in Hin. right. intros x Hx. simpl. done.
    + destruct (pending !! k) as [a|] eqn:E.
      * symmetry. apply map_lookup_filter_Some. split; [done|]. simpl.
        destruct (decide (today < k)%Z) as [|Hk]; [done|].
        exfalso. apply Hout. apply list_elem_of_fmap. exists (k, a).
        split; [done|]. apply list_elem_of_filter. split; [done|].
        by apply elem_of_map_to_list.
      * symmetry. apply map_lookup_filter_None. by left.
  - fold (Py.sum (filter (λ item, (today < item.1)%Z) (map_to_list pending)).*2).
    apply sum_perm, fmap_Permutation. unfold unsettled.
    rewrite map_filter_alt. symmetry. apply map_to_list_to_map.
    eapply sublist_NoDup; [apply (NoDup_fst_map_to_list pending)|].
    apply fmap_sublist, sublist_filter.
Qed.

(** C7: proceeds recorded on day [D] are part of the unavailable cash on
    day [D]; on any later day [D'] they are not, and the entry dated
    [D + 1] is gone from the tracker. *)
Theorem settlement_next_day (D D' : day) (amount : Q) (pending : gmap day Q) :
  (D < D')%Z →
  (get_unavailable_cash D (record_sale_proceeds D amount pending)).1
    == (get_unavailable_cash D pending).1 + amount
  ∧ (get_unavailable_cash D' (record_sale_proceeds D amount pending)).1
    == (get_unavailable_cash D' pending).1
  ∧ (get_unavailable_cash D' (record_sale_proceeds D amount pending)).2
      !! (D + 1)%Z = None.
Proof.
  intros HD.
  destruct (get_unavailable_cash_unsettled D pending) as [_ ->].
  destruct (get_unavailable_cash_unsettled D (record_sale_proceeds D amount pending))
    as [_ ->].
  destruct (get_unavailable_cash_unsettled D' pending) as [_ ->].
  destruct (get_unavailable_cash_unsettled D' (record_sale_proceeds D amount pending))
    as [-> ->].
  unfold record_sale_proceeds, unsettled.
  assert (Hlate : filter (λ item : Z * Q, (D' < item.1)%Z)
                    (<[(D + 1)%Z := default 0 (pending !! (D + 1)%Z) + amount]> pending)
                  = filter (λ item : Z * Q, (D' < item.1)%Z) pending).
  { rewrite map_filter_insert_False by (simpl; lia).
    rewrite map_filter_delete. apply delete_id.
    apply map_lookup_filter_None. right. intros x _. simpl. lia. }
  split; [|split].
  - rewrite map_filter_insert_True by (simpl; lia).
    rewrite values_sum_insert.
    rewrite (values_sum_delete (filter _ pending) (D + 1)%Z).
    assert (Hl : filter (λ item : Z * Q, (D < item.1)%Z) pending !! (D + 1)%Z
                 = pending !! (D + 1)%Z).
    { rewrite map_lookup_filter. destruct (pending !! (D + 1)%Z); [|done].
      simpl. rewrite option_guard_True by lia. done. }
    rewrite Hl. ring.
  - by rewrite Hlate.
  - rewrite Hlate. apply map_lookup_filter_None. right. intros x _. simpl. lia.
Qed.

Lemma settlement_next_day_witness :
  (example_day < example_day + 1)%Z
  ∧ (get_unavailable_cash example_day
       (record_sale_proceeds example_day 1000 example_pending)).1
    == (get_unavailable_cash example_day example_pending).1 + 1000.
Proof.
  assert (H : (example_day < example_day + 1)%Z) by (vm_compute; reflexivity).
  split; [exact H|].
  apply (settlement_next_day example_day (example_day + 1) 1000 example_pending H).
Defined.

End SettlementFacts.

(** ** Signal generation *)

Section SortFacts.
Import SignalGenerator.
Context {A : Type} (key : A → Q).

Lemma insert_desc_perm (x : A) (l : list A) : insert_desc key x l ≡ₚ x :: l.
Proof.
  induction l as [|y l IH]; simpl; [done|].
  destruct (key x <? key y); [|done].
  rewrite IH. apply Permutation_swap.
Qed.

Lemma sort_desc_perm (l : list A) : sort_desc key l ≡ₚ l.
Proof.
  induction l as [|x l IH]; simpl; [done|].
  fold (sort_desc key l). by rewrite insert_desc_perm, IH.
Qed.

Lemma insert_desc_sorted (x : A) (l : list A) :
  StronglySorted (desc key) l → StronglySorted (desc key) (insert_desc key x l).
Proof.
  induction 1 as [|y l Hl IH Hy]; simpl.
  - repeat constructor.
  - destruct (key x <? key y) eqn:E.
    + constructor; [done|].
      rewrite insert_desc_perm. constructor; [|done].
      apply ltb_lt in E. by apply Qlt_le_weak.
    + apply ltb_ge in E. constructor; [by constructor|].
      constructor; [done|].
      eapply Forall_impl; [exact Hy|].
      intros z Hz. unfold desc in *. by eapply Qle_trans.
Qed.

Lemma sort_desc_sorted (l : list A) : StronglySorted (desc key) (sort_desc key l).
Proof.
  induction l as [|x l IH]; simpl; [constructor|].
  by apply insert_desc_sorted.
Qed.

(** Insertion leaves the order among the elements of one key as it was,
    with the inserted element first. *)
Lemma filter_insert_desc (p : Q) (x : A) (l : list A) :
  filter (λ a, key a == p) (insert_desc key x l)
  = filter (λ a, key a == p) (x :: l).
Proof.
  induction l as [|y l IH]; simpl; [done|].
  destruct (key x <? key y) eqn:E; [|done].
  apply ltb_lt in E.
  rewrite (filter_cons _ y), IH, !(filter_cons _ x), (filter_cons _ y).
  destruct (decide (key y == p)) as [Hy|]; [|done].
  destruct (decide (key x == p)) as [Hx|]; [|done].
  exfalso. rewrite Hx, Hy in E. by apply Qlt_irrefl in E.
Qed.

(** The sort is stable: the elements of any one key come out in the order
    they went in. *)
Lemma sort_desc_stable (p : Q) (l : list A) :
  filter (λ a, key a == p) (sort_desc key l) = filter (λ a, key a == p) l.
Proof.
  induction l as [|x l IH]; simpl; [done|].
  fold (sort_desc key l).
  by rewrite filter_insert_desc, !(filter_cons _ x), IH.
Qed.

End SortFacts.

Section SignalGeneratorFacts.
Import Config Universe TradingWindow RiskManager SignalGenerator.

Lemma generate_signal_symbol sym score window alloc is_held flags :
  symbol (generate_signal sym score window alloc is_held flags) = sym.
Proof.
  unfold generate_signal.
  repeat match goal with
         | |- context [if ?b then _ else _] => destruct b
         end; reflexivity.
Qed.

Lemma ALL_SYMBOLS_NoDup : NoDup ALL_SYMBOLS.
Proof. apply (bool_decide_unpack _). by vm_compute. Qed.

Lemma actionable_signals_symbols vs ws sa held rf :
  symbol <$> actionable_signals vs ws sa held rf `sublist_of` ALL_SYMBOLS.
Proof.
  unfold actionable_signals.
  transitivity (symbol <$> (signal_of vs ws sa held rf <$> ALL_SYMBOLS)).
  - apply fmap_sublist, sublist_filter.
  - rewrite <- list_fmap_compose.
    rewrite <- (list_fmap_id ALL_SYMBOLS) at 2.
    apply reflexive_eq, list_fmap_ext.
    intros i sym _. apply generate_signal_symbol.
Qed.

(** The batch returns every signal that is not HOLD, and each once. *)
Lemma generate_all_signals_perm vs ws sa held rf :
  generate_all_signals vs ws sa held rf ≡ₚ actionable_signals vs ws sa held rf.
Proof. apply sort_desc_perm. Qed.

(** C3: the batch returns only signals that are not HOLD, in descending
    order of priority, and the signals of any one priority stand in the
    order of their symbols in ALL_SYMBOLS, which lists no symbol twice. *)
Theorem generate_all_signals_sorted_stable
    (value_scores : gmap string Q) (windows : gmap string WindowResult)
    (sector_allocations : gmap string Q) (held_symbols : gset string)
    (risk_flags_by_symbol : gmap string RiskFlags) :
  Forall (λ s, action s ≠ ACTION_HOLD)
    (generate_all_signals value_scores windows sector_allocations held_symbols
                          risk_flags_by_symbol)
  ∧ StronglySorted (desc priority)
      (generate_all_signals value_scores windows sector_allocations held_symbols
                            risk_flags_by_symbol)
  ∧ (∀ p : Q,
       symbol <$> filter (λ s, priority s == p)
         (generate_all_signals value_scores windows sector_allocations
                               held_symbols risk_flags_by_symbol)
       `sublist_of` ALL_SYMBOLS)
  ∧ NoDup ALL_SYMBOLS.
Proof.
  split; [|split; [|split]].
  - rewrite generate_all_signals_perm. unfold actionable_signals.
    apply Forall_forall. intros s Hs.
    by apply list_elem_of_filter in Hs as [Hs _].
  - apply (sort_desc_sorted priority).
  - intros p. unfold generate_all_signals. rewrite sort_desc_stable.
    etransitivity; [|apply (actionable_signals_symbols value_scores windows
                             sector_allocations held_symbols risk_flags_by_symbol)].
    apply fmap_sublist, sublist_filter.
  - apply ALL_SYMBOLS_NoDup.
Qed.

End SignalGeneratorFacts.

(** ** Position sizing *)

Section SizingFacts.
Import Config Universe RiskManager OrderExecutor PortfolioTracker Main.

Lemma int_floordiv (a b : Q) : Py.int (Py.floordiv a b) = Qfloor (a / b).
Proof.
  unfold Py.int, Py.floordiv.
  destruct (_ <? _); [apply Qceiling_Z | apply Qfloor_Z].
Qed.

(** A whole number of shares at a positive price costs no more than the
    budget it was cut from. *)
Lemma floor_cost_le (budget price : Q) :
  0 < price → inject_Z (Qfloor (budget / price)) * price <= budget.
Proof.
  intros Hp.
  apply Qle_trans with (budget / price * price).
  - apply Qmult_le_compat_r; [apply Qfloor_le | by apply Qlt_le_weak].
  - rewrite Qmult_comm, Qmult_div_r; [apply Qle_refl|].
    intros H0. rewrite H0 in Hp. by apply Qlt_irrefl in Hp.
Qed.

Lemma compute_position_size_pos_price sym price pv alloc n :
  (0 < compute_position_size sym price pv alloc n)%Z → 0 < price.
Proof.
  unfold compute_position_size.
  destruct (price <=? 0) eqn:E; simpl; [lia|]. intros _. by apply leb_gt.
Qed.

Lemma compute_position_size_cost sym price pv alloc n :
  0 < price → 0 < pv →
  inject_Z (compute_position_size sym price pv alloc n) * price
  <= pv * MAX_POSITION_PCT.
Proof.
  intros Hp Hv. unfold compute_position_size.
  apply leb_gt in Hp as Hp', Hv as Hv'. rewrite Hp', Hv'. simpl.
  rewrite int_floordiv.
  set (budget := Py.min _ _).
  destruct (Z.max_spec (Qfloor (budget / price)) 0) as [[_ ->]|[_ ->]].
  - rewrite Qmult_0_l. apply Qmult_le_0_compat; [by apply Qlt_le_weak|].
    by vm_compute.
  - eapply Qle_trans; [by apply floor_cost_le|]. apply min_spec.
Qed.

(** C8: at a positive price and a positive portfolio value the sized
    quantity costs at most MAX_POSITION_PCT of the portfolio value; and a
    quantity the buy branch of the execution loop hands to [execute_buy]
    costs at most the cash less the unsettled proceeds. *)
Theorem position_size_within_caps (today : day) (sym : string)
    (price portfolio_value alloc : Q) (num_sector_stocks : Z)
    (allocations : gmap string Q) (portfolio : PortfolioState)
    (settlement : gmap day Q) (executed : Z) :
  (0 < price → 0 < portfolio_value →
   inject_Z (compute_position_size sym price portfolio_value alloc
                                   num_sector_stocks) * price
   <= portfolio_value * MAX_POSITION_PCT)
  ∧ ((buy_branch today sym price allocations portfolio settlement).1
     = Some executed →
     inject_Z executed * price
     <= cash portfolio - (get_unavailable_cash today settlement).1).
Proof.
  split; [apply compute_position_size_cost|].
  unfold buy_branch.
  set (qty := compute_position_size _ _ _ _ _).
  destruct (0 <? qty)%Z eqn:Hq; [|done].
  apply Z.ltb_lt, compute_position_size_pos_price in Hq.
  destruct (get_unavailable_cash today settlement) as [unavailable settlement'].
  cbv beta iota zeta. cbn [fst snd]. destruct (_ >? _) eqn:Hc.
  - rewrite int_floordiv. destruct (0 <? _)%Z; [|done].
    cbn [fst]. intros H.
    replace executed with (Qfloor ((cash portfolio - unavailable) / price))
      by congruence.
    by apply floor_cost_le.
  - destruct (0 <? qty)%Z; [|done]. cbn [fst]. intros H.
    replace executed with qty by congruence. by apply ltb_ge in Hc.
Qed.

Lemma position_size_within_caps_witness :
  0 < 100 ∧ 0 < 100000
  ∧ (buy_branch example_day "AAPL" 100 example_allocations example_portfolio
                example_pending).1 = Some 7%Z
  ∧ inject_Z (compute_position_size "AAPL" 100 100000 0.40 17) * 100
    <= 100000 * MAX_POSITION_PCT
  ∧ inject_Z 7 * 100
    <= cash example_portfolio
       - (get_unavailable_cash example_day example_pending).1.
Proof.
  assert (H1 : 0 < 100) by (vm_compute; reflexivity).
  assert (H2 : 0 < 100000) by (vm_compute; reflexivity).
  assert (H3 : (buy_branch example_day "AAPL" 100 example_allocations
                           example_portfolio example_pending).1 = Some 7%Z)
    by (vm_compute; reflexivity).
  destruct (position_size_within_caps example_day "AAPL" 100 100000 0.40 17
              example_allocations example_portfolio example_pending 7)
    as [Hsize Hbuy].
  split; [exact H1|]. split; [exact H2|]. split; [exact H3|].
  split; [exact (Hsize H1 H2) | exact (Hbuy H3)].
Defined.

End SizingFacts.

(** ** Portfolio tracker *)

Section PortfolioTrackerFacts.
Import OrderExecutor PortfolioTracker.

Lemma save_persisted (w : World) : persisted (save w).
Proof. reflexivity. Qed.

Lemma sync_from_sim_persisted tf ic w : persisted (sync_from_sim tf ic w).
Proof.
  destruct tf; unfold sync_from_sim;
    try destruct (replay _ _) as [hs c]; apply save_persisted.
Qed.

Lemma sync_from_api_persisted balance positions w :
  persisted (sync_from_api balance positions w).
Proof. apply save_persisted. Qed.

(** The replay reads nothing of the tracker it starts in. *)
Lemma sync_from_sim_tracker tf ic (w w' : World) :
  tracker (sync_from_sim tf ic w) = tracker (sync_from_sim tf ic w').
Proof.
  destruct tf; unfold sync_from_sim;
    try destruct (replay _ _) as [hs c]; reflexivity.
Qed.

(** C2: the replay of a trade log from the initial cash gives one state
    whatever the tracker held before, and a second replay of the same log
    changes nothing: tracker and state file are as after the first. *)
Theorem sync_from_sim_idempotent (trades_file : TradesFile) (initial_cash : Q)
    (w w' : World) :
  tracker (sync_from_sim trades_file initial_cash w)
  = tracker (sync_from_sim trades_file initial_cash w')
  ∧ sync_from_sim trades_file initial_cash
      (sync_from_sim trades_file initial_cash w)
    = sync_from_sim trades_file initial_cash w.
Proof.
  split; [apply sync_from_sim_tracker|].
  destruct trades_file; unfold sync_from_sim;
    try destruct (replay _ _) as [hs c]; reflexivity.
Qed.

(** C9: [update_market_values] leaves the cash and the holdings, so every
    quantity and average cost, as they were. *)
Theorem update_market_values_frame (live_prices : gmap string Q) (w : World) :
  cash (tracker (update_market_values live_prices w)) = cash (tracker w)
  ∧ holdings (tracker (update_market_values live_prices w))
    = holdings (tracker w)
  ∧ (∀ sym h, holdings (tracker w) !! sym = Some h →
       ∃ h', holdings (tracker (update_market_values live_prices w)) !! sym
             = Some h'
             ∧ qty h' = qty h ∧ avg_cost h' = avg_cost h).
Proof.
  split; [done|]. split; [done|]. intros sym h Hh. by exists h.
Qed.

(** C6, as amended: the two sync operations write the state they leave in
    the tracker to the state file; [update_market_values] does not write
    the file. *)
Theorem sync_operations_persist (trades_file : TradesFile) (initial_cash : Q)
    (balance : Balance) (positions : list Position)
    (live_prices : gmap string Q) (w : World) :
  persisted (sync_from_sim trades_file initial_cash w)
  ∧ persisted (sync_from_api balance positions w)
  ∧ portfolio_state_file (update_market_values live_prices w)
    = portfolio_state_file w.
Proof.
  split; [apply sync_from_sim_persisted|].
  split; [apply sync_from_api_persisted | reflexivity].
Qed.

(** C6, as stated, fails: after a replay that bought ten shares at 100, a
    quote of 110 moves the total value from 100000 to 100100, and the state
    file still holds 100000. *)
Lemma update_market_values_not_persisted :
  persisted example_world
  ∧ total_value (tracker example_world) == 100000
  ∧ total_value (tracker (update_market_values example_live_prices example_world))
    == 100100
  ∧ ¬ persisted (update_market_values example_live_prices example_world).
Proof.
  split; [apply sync_from_sim_persisted|].
  split; [by vm_compute|]. split; [by vm_compute|].
  unfold persisted. intros H.
  assert (Hf : portfolio_state_file
                 (update_market_values example_live_prices example_world)
               = Some (tracker example_world)) by apply sync_from_sim_persisted.
  rewrite Hf in H. apply (inj Some) in H.
  apply (f_equal total_value) in H.
  assert (Hq : total_value (tracker example_world)
               == total_value (tracker (update_market_values example_live_prices
                                                              example_world)))
    by (rewrite <- H; reflexivity).
  clear H Hf. vm_compute in Hq. discriminate Hq.
Qed.

Lemma replay_app (pre post : list Trade) (st : gmap string Holding * Q) :
  replay (pre ++ post) st = replay post (replay pre st).
Proof. apply foldl_app. Qed.

Lemma replay_trade_sell_absent (hs : gmap string Holding) (c : Q) (trade : Trade) :
  action trade = "SELL" → hs !! symbol trade = None →
  replay_trade (hs, c) trade
  = (hs, c + inject_Z (OrderExecutor.quantity trade) * price trade).
Proof. intros Ha Hs. unfold replay_trade. by rewrite Ha, Hs. Qed.

Lemma replay_trade_buy_cash (hs : gmap string Holding) (c : Q) (trade : Trade) :
  action trade = "BUY" →
  (replay_trade (hs, c) trade).2
  = c - inject_Z (OrderExecutor.quantity trade) * price trade.
Proof.
  intros Ha. unfold replay_trade. rewrite Ha. cbn [String.eqb Ascii.eqb Bool.eqb].
  by destruct (hs !! symbol trade).
Qed.

(** C10: in the replay a SELL of a symbol that is not held adds quantity
    times price to the cash and leaves the holdings as they were, and the
    replay goes on with the trades after it; a BUY takes quantity times
    price from the cash whatever the cash is. *)
Theorem replay_sell_without_holding (hs : gmap string Holding) (c : Q)
    (sell buy : Trade) (pre post : list Trade)
    (st : gmap string Holding * Q) :
  (action sell = "SELL" → hs !! symbol sell = None →
   replay_trade (hs, c) sell
   = (hs, c + inject_Z (OrderExecutor.quantity sell) * price sell))
  ∧ (action sell = "SELL" → (replay pre st).1 !! symbol sell = None →
     replay (pre ++ sell :: post) st
     = replay post ((replay pre st).1,
                    (replay pre st).2
                    + inject_Z (OrderExecutor.quantity sell) * price sell))
  ∧ (action buy = "BUY" →
     (replay_trade (hs, c) buy).2
     = c - inject_Z (OrderExecutor.quantity buy) * price buy).
Proof.
  split; [apply replay_trade_sell_absent|].
  split; [|apply replay_trade_buy_cash].
  intros Ha Hs. rewrite replay_app. simpl.
  destruct (replay pre st) as [hs' c'].
  by rewrite (replay_trade_sell_absent hs' c' sell Ha Hs).
Qed.

Lemma replay_sell_without_holding_witness :
  action example_sell = "SELL"
  ∧ action example_big_buy = "BUY"
  ∧ replay_trade (∅, 100) example_sell = (∅, 100 + inject_Z 5 * 10)
  ∧ replay ([] ++ example_sell :: [example_big_buy]) (∅, 100)
    = replay [example_big_buy] (∅, 100 + inject_Z 5 * 10)
  ∧ (replay_trade (∅, 100) example_big_buy).2 = 100 - inject_Z 2000 * 100
  ∧ (replay [example_sell; example_big_buy] (∅, 100)).2 == -199850.
Proof.
  assert (Ha : action example_sell = "SELL") by reflexivity.
  assert (Hb : action example_big_buy = "BUY") by reflexivity.
  assert (Hs : (∅ : gmap string Holding) !! symbol example_sell = None)
    by apply lookup_empty.
  destruct (replay_sell_without_holding ∅ 100 example_sell example_big_buy
              [] [example_big_buy] (∅, 100)) as (H1 & H2 & H3).
  split; [exact Ha|]. split; [exact Hb|].
  split; [exact (H1 Ha Hs)|]. split; [exact (H2 Ha Hs)|].
  split; [exact (H3 Hb)|]. vm_compute. reflexivity.
Defined.

End PortfolioTrackerFacts.

(** * Further properties *)

(** Boolean comparisons in the hypotheses, as propositions. *)
Ltac to_props :=
  repeat match goal with
         | H : (_ <? _) = true |- _ => apply ltb_lt in H
         | H : (_ <? _) = false |- _ => apply ltb_ge in H
         | H : (_ >? _) = true |- _ => apply ltb_lt in H
         | H : (_ >? _) = false |- _ => apply ltb_ge in H
         | H : (_ <=? _) = true |- _ => apply leb_le in H
         | H : (_ <=? _) = false |- _ => apply leb_gt in H
         | H : (_ >=? _) = true |- _ => apply leb_le in H
         | H : (_ >=? _) = false |- _ => apply leb_gt in H
         end.

(** A case for every conditional of the goal. *)
Ltac split_ifs :=
  repeat match goal with
         | |- context [if ?b then _ else _] => destruct b eqn:?
         end.

(** ** Rounding *)

Section RoundFacts.

Lemma pow10_pos (n : nat) : 0 < inject_Z (10 ^ Z.of_nat n).
Proof.
  change 0 with (inject_Z 0). rewrite <- Zlt_Qlt.
  apply Z.pow_pos_nonneg; lia.
Qed.

(** Rounding does not cross a whole number. *)
Lemma round_bounds (a b : Z) (x : Q) (ndigits : nat) :
  inject_Z a <= x → x <= inject_Z b →
  inject_Z a <= Py.round x ndigits ∧ Py.round x ndigits <= inject_Z b.
Proof.
  intros Ha Hb. unfold Py.round.
  pose proof (pow10_pos ndigits) as Hu.
  set (u := (10 ^ Z.of_nat ndigits)%Z) in *.
  set (f := Qfloor (x * inject_Z u)).
  assert (Hlo : (a * u ≤ f)%Z).
  { rewrite <- (Qfloor_Z (a * u)). apply Qfloor_resp_le.
    rewrite inject_Z_mult. apply Qmult_le_compat_r; [done|].
    by apply Qlt_le_weak. }
  assert (Hsc : x * inject_Z u <= inject_Z (b * u)).
  { rewrite inject_Z_mult. apply Qmult_le_compat_r; [done|].
    by apply Qlt_le_weak. }
  assert (Hhi : (f ≤ b * u)%Z).
  { rewrite <- (Qfloor_Z (b * u)). by apply Qfloor_resp_le. }
  assert (Hup : inject_Z f < x * inject_Z u → (f + 1 ≤ b * u)%Z).
  { intros Hlt. assert (f < b * u)%Z; [|lia].
    rewrite Zlt_Qlt. by eapply Qlt_le_trans. }
  assert (Hn : ∀ n : Z, (a * u ≤ n)%Z → (n ≤ b * u)%Z →
                inject_Z a <= inject_Z n / inject_Z u
                ∧ inject_Z n / inject_Z u <= inject_Z b).
  { intros n H1 H2. split.
    - apply Qle_shift_div_l; [done|].
      rewrite <- inject_Z_mult. by rewrite <- Zle_Qle.
    - apply Qle_shift_div_r; [done|].
      rewrite <- inject_Z_mult. by rewrite <- Zle_Qle. }
  destruct (_ ?= _) eqn:E.
  - apply Qeq_alt in E. destruct (Z.even f); apply Hn; try lia.
    apply Hup. lra.
  - apply Hn; lia.
  - apply Qgt_alt in E. apply Hn; [lia|]. apply Hup. lra.
Qed.

End RoundFacts.

(** ** Value scoring, continued *)

Section ValueScorerMore.
Import Config ValueScorer.

Ltac score_range := unfold NEUTRAL; split_ifs; lra.

Lemma score_pe_range pe : 10 <= _score_pe pe ∧ _score_pe pe <= 100.
Proof. destruct pe; unfold _score_pe; score_range. Qed.

Lemma score_eps_growth_range g :
  10 <= _score_eps_growth g ∧ _score_eps_growth g <= 100.
Proof. destruct g; unfold _score_eps_growth; score_range. Qed.

Lemma score_revenue_growth_range g :
  10 <= _score_revenue_growth g ∧ _score_revenue_growth g <= 100.
Proof. destruct g; unfold _score_revenue_growth; score_range. Qed.

Lemma score_profit_margin_range m :
  10 <= _score_profit_margin m ∧ _score_profit_margin m <= 100.
Proof. destruct m; unfold _score_profit_margin; score_range. Qed.

Lemma score_debt_equity_range de :
  10 <= _score_debt_equity de ∧ _score_debt_equity de <= 100.
Proof. destruct de; unfold _score_debt_equity; score_range. Qed.

Lemma score_fair_value_gap_range cp tgt :
  10 <= _score_fair_value_gap cp tgt ∧ _score_fair_value_gap cp tgt <= 100.
Proof. destruct cp, tgt; unfold _score_fair_value_gap; score_range. Qed.

(** The weights are a convex combination, so the weighted sum stays
    between the least and the greatest sub-score. *)
Lemma weighted_score_range (fundamentals : gmap string Q) :
  10 <= weighted_score fundamentals ∧ weighted_score fundamentals <= 100.
Proof.
  unfold weighted_score.
  pose proof (score_pe_range (fundamentals !! "pe")).
  pose proof (score_eps_growth_range (fundamentals !! "eps_growth")).
  pose proof (score_revenue_growth_range (fundamentals !! "revenue_growth")).
  pose proof (score_profit_margin_range (fundamentals !! "profit_margin")).
  pose proof (score_debt_equity_range (fundamentals !! "debt_equity")).
  pose proof (score_fair_value_gap_range (fundamentals !! "current_price")
                                         (fundamentals !! "analyst_target")).
  unfold SCORE_WEIGHT_PE, SCORE_WEIGHT_EPS_GROWTH, SCORE_WEIGHT_REVENUE_GROWTH,
    SCORE_WEIGHT_PROFIT_MARGIN, SCORE_WEIGHT_DEBT_EQUITY,
    SCORE_WEIGHT_FAIR_VALUE_GAP.
  lra.
Qed.

(** X1: whatever the record holds or lacks, the value score lies between
    10 and 100. *)
Theorem compute_value_score_range (fundamentals : gmap string Q) :
  10 <= compute_value_score fundamentals
  ∧ compute_value_score fundamentals <= 100.
Proof.
  unfold compute_value_score.
  destruct (weighted_score_range fundamentals) as [Hlo Hhi].
  apply (round_bounds 10 100).
  - change (inject_Z 10) with 10.
    unfold Py.min, Py.max, Py.gtb. split_ifs; to_props; lra.
  - change (inject_Z 100) with 100.
    unfold Py.min, Py.max, Py.gtb. split_ifs; to_props; lra.
Qed.

(** X2: each scorer is monotone in the favourable direction: a higher
    positive P/E, a higher debt/equity or a higher price against a fixed
    positive target never scores higher; a higher EPS growth, revenue
    growth or profit margin never scores lower. *)
Theorem sub_scores_monotone (lo hi tgt : Q) :
  lo <= hi →
  (0 < lo → _score_pe (Some hi) <= _score_pe (Some lo))
  ∧ _score_eps_growth (Some lo) <= _score_eps_growth (Some hi)
  ∧ _score_revenue_growth (Some lo) <= _score_revenue_growth (Some hi)
  ∧ _score_profit_margin (Some lo) <= _score_profit_margin (Some hi)
  ∧ _score_debt_equity (Some hi) <= _score_debt_equity (Some lo)
  ∧ (0 < tgt →
     _score_fair_value_gap (Some hi) (Some tgt)
     <= _score_fair_value_gap (Some lo) (Some tgt)).
Proof.
  intros H. repeat split.
  - intros H0. unfold _score_pe, NEUTRAL. split_ifs; to_props; lra.
  - unfold _score_eps_growth. split_ifs; to_props; lra.
  - unfold _score_revenue_growth. split_ifs; to_props; lra.
  - unfold _score_profit_margin. split_ifs; to_props; lra.
  - unfold _score_debt_equity. split_ifs; to_props; lra.
  - intros Ht. unfold _score_fair_value_gap, NEUTRAL.
    assert (Hgap : (tgt - hi) / tgt * 100 <= (tgt - lo) / tgt * 100).
    { apply Qmult_le_compat_r; [|lra]. unfold Qdiv.
      apply Qmult_le_compat_r; [lra|].
      apply Qlt_le_weak, Qinv_lt_0_compat, Ht. }
    revert Hgap.
    generalize ((tgt - hi) / tgt * 100), ((tgt - lo) / tgt * 100).
    intros g1 g2 Hgap. split_ifs; to_props; lra.
Qed.

Lemma sub_scores_monotone_witness :
  12 <= 18 ∧ 0 < 12 ∧ 0 < 140
  ∧ _score_pe (Some 18) <= _score_pe (Some 12)
  ∧ _score_fair_value_gap (Some 18) (Some 140)
    <= _score_fair_value_gap (Some 12) (Some 140).
Proof.
  assert (H : 12 <= 18) by (vm_compute; discriminate).
  assert (H0 : 0 < 12) by (vm_compute; reflexivity).
  assert (Ht : 0 < 140) by (vm_compute; reflexivity).
  destruct (sub_scores_monotone 12 18 140 H) as (Hpe & _ & _ & _ & _ & Hfv).
  split; [exact H|]. split; [exact H0|]. split; [exact Ht|].
  split; [exact (Hpe H0) | exact (Hfv Ht)].
Defined.

(** X3: a record with no P/E, growth, margin, debt/equity and analyst
    target scores the neutral 50, whatever else it holds; 50 passes the
    fundamental gate and is below the buy threshold. *)
Theorem compute_value_score_no_data (fundamentals : gmap string Q) :
  Forall (λ key, fundamentals !! key = None)
    ["pe"; "eps_growth"; "revenue_growth"; "profit_margin"; "debt_equity";
     "analyst_target"] →
  compute_value_score fundamentals == 50
  ∧ passes_fundamental_gate (compute_value_score fundamentals) = true
  ∧ (compute_value_score fundamentals >=? BUY_SCORE_THRESHOLD) = false.
Proof.
  intros H.
  repeat match goal with
         | H : Forall _ (_ :: _) |- _ =>
             apply Forall_cons in H as [? H]
         end.
  assert (Hs : compute_value_score fundamentals = Py.round 50 2).
  { unfold compute_value_score, weighted_score.
    repeat match goal with
           | H : fundamentals !! _ = None |- _ => rewrite H; clear H
           end.
    destruct (fundamentals !! "current_price"); reflexivity. }
  rewrite Hs. by vm_compute.
Qed.

Lemma compute_value_score_no_data_witness :
  Forall (λ key, (<["current_price" := 100]> ∅ : gmap string Q) !! key = None)
    ["pe"; "eps_growth"; "revenue_growth"; "profit_margin"; "debt_equity";
     "analyst_target"]
  ∧ compute_value_score (<["current_price" := 100]> ∅) == 50.
Proof.
  assert (H : Forall (λ key, (<["current_price" := 100]> ∅ : gmap string Q)
                             !! key = None)
                ["pe"; "eps_growth"; "revenue_growth"; "profit_margin";
                 "debt_equity"; "analyst_target"]).
  { repeat (apply Forall_cons; split; [vm_compute; reflexivity|]).
    apply Forall_nil_2. }
  split; [exact H|].
  exact (proj1 (compute_value_score_no_data _ H)).
Defined.

End ValueScorerMore.

(** ** Window zones and signals, continued *)

Section SignalMore.
Import Config Universe TradingWindow RiskManager ValueScorer SignalGenerator.

Ltac bool_props :=
  repeat match goal with
         | H : (_ && _) = true |- _ => apply andb_true_iff in H as [? ?]
         | H : (_ && _) = false |- _ => apply andb_false_iff in H as [?|?]
         | H : negb _ = true |- _ => apply negb_true_iff in H
         | H : negb _ = false |- _ => apply negb_false_iff in H
         | H : bool_decide _ = true |- _ => apply bool_decide_eq_true in H
         | H : bool_decide _ = false |- _ => apply bool_decide_eq_false in H
         end.

(** X4: the zone of a window is decided by its position alone, the five
    zones are disjoint and cover every position, and the thresholds
    themselves fall in BUY (0.20), HOLD (0.35 and 0.65) and SELL (0.80). *)
Theorem get_window_signal_zones (window : WindowResult) :
  (get_window_signal (Some window) = STRONG_BUY ↔ position window < 0.20)
  ∧ (get_window_signal (Some window) = BUY
     ↔ 0.20 <= position window ∧ position window < 0.35)
  ∧ (get_window_signal (Some window) = HOLD
     ↔ 0.35 <= position window ∧ position window <= 0.65)
  ∧ (get_window_signal (Some window) = SELL
     ↔ 0.65 < position window ∧ position window <= 0.80)
  ∧ (get_window_signal (Some window) = STRONG_SELL
     ↔ 0.80 < position window).
Proof.
  unfold get_window_signal, STRONG_BUY_THRESHOLD, BUY_THRESHOLD,
    SELL_THRESHOLD, STRONG_SELL_THRESHOLD.
  split_ifs; to_props; intuition (discriminate || lra).
Qed.

Lemma generate_signal_decision_table (symbol : string) (value_score : Q)
    (window : option WindowResult) (sector_allocation : Q) (is_held : bool)
    (risk_flags : RiskFlags) :
  (action (generate_signal symbol value_score window sector_allocation
                           is_held risk_flags) = ACTION_STRONG_BUY
   ↔ is_held = false ∧ wash_sale_blocked risk_flags = false
     ∧ max_positions_reached risk_flags = false
     ∧ STRONG_BUY_SCORE_THRESHOLD <= value_score
     ∧ get_window_signal window = STRONG_BUY)
  ∧ (action (generate_signal symbol value_score window sector_allocation
                             is_held risk_flags) = ACTION_BUY
     ↔ is_held = false ∧ wash_sale_blocked risk_flags = false
       ∧ max_positions_reached risk_flags = false
       ∧ BUY_SCORE_THRESHOLD <= value_score
       ∧ (get_window_signal window = BUY
          ∨ get_window_signal window = STRONG_BUY
            ∧ value_score < STRONG_BUY_SCORE_THRESHOLD))
  ∧ (action (generate_signal symbol value_score window sector_allocation
                             is_held risk_flags) = ACTION_SELL
     ↔ is_held = true
       ∧ (value_score < COLLAPSE_SCORE_THRESHOLD
          ∨ get_window_signal window = STRONG_SELL
          ∨ get_window_signal window = SELL
            ∧ value_score < SELL_SCORE_THRESHOLD)).
Proof.
  unfold generate_signal, passes_fundamental_gate, STRONG_BUY_SCORE_THRESHOLD,
    BUY_SCORE_THRESHOLD, COLLAPSE_SCORE_THRESHOLD, SELL_SCORE_THRESHOLD,
    FUNDAMENTAL_GATE_THRESHOLD.
  destruct risk_flags as [blocked full]. simpl wash_sale_blocked.
  simpl max_positions_reached.
  destruct (get_window_signal window), is_held, blocked, full;
    split_ifs; bool_props; to_props; simpl;
    intuition (discriminate || congruence || lra).
Qed.

(** X5: the decision table of one signal.  A buy of either kind needs a
    symbol that is not held, not blocked by a wash sale, with room for a
    position and a score of at least 60 in a buy zone; a sell needs a held
    symbol whose score collapsed, or that is in the strong sell zone, or in
    the sell zone with a score below 50. *)
Theorem generate_signal_decision (symbol : string) (value_score : Q)
    (window : option WindowResult) (sector_allocation : Q) (is_held : bool)
    (risk_flags : RiskFlags) :
  (action (generate_signal symbol value_score window sector_allocation
                           is_held risk_flags) = ACTION_STRONG_BUY
   ↔ is_held = false ∧ wash_sale_blocked risk_flags = false
     ∧ max_positions_reached risk_flags = false
     ∧ STRONG_BUY_SCORE_THRESHOLD <= value_score
     ∧ get_window_signal window = STRONG_BUY)
  ∧ (action (generate_signal symbol value_score window sector_allocation
                             is_held risk_flags) = ACTION_BUY
     ↔ is_held = false ∧ wash_sale_blocked risk_flags = false
       ∧ max_positions_reached risk_flags = false
       ∧ BUY_SCORE_THRESHOLD <= value_score
       ∧ (get_window_signal window = BUY
          ∨ get_window_signal window = STRONG_BUY
            ∧ value_score < STRONG_BUY_SCORE_THRESHOLD))
  ∧ (action (generate_signal symbol value_score window sector_allocation
                             is_held risk_flags) = ACTION_SELL
     ↔ is_held = true
       ∧ (value_score < COLLAPSE_SCORE_THRESHOLD
          ∨ get_window_signal window = STRONG_SELL
          ∨ get_window_signal window = SELL
            ∧ value_score < SELL_SCORE_THRESHOLD)).
Proof.
  apply generate_signal_decision_table.
Qed.

(** X6: a signal has priority 0 exactly when it is HOLD; a strong buy has
    priority 100, a sell 70, 80 or 90, and a buy at least 66 and, for a
    score of at most 100, at most 70: strong buys are executed first and
    no buy before a sell of higher priority. *)
Theorem generate_signal_priority (symbol : string) (value_score : Q)
    (window : option WindowResult) (sector_allocation : Q) (is_held : bool)
    (risk_flags : RiskFlags) :
  value_score <= 100 →
  (action (generate_signal symbol value_score window sector_allocation
                           is_held risk_flags) = ACTION_HOLD
   ↔ priority (generate_signal symbol value_score window sector_allocation
                               is_held risk_flags) == 0)
  ∧ (action (generate_signal symbol value_score window sector_allocation
                             is_held risk_flags) = ACTION_STRONG_BUY →
     priority (generate_signal symbol value_score window sector_allocation
                               is_held risk_flags) == 100)
  ∧ (action (generate_signal symbol value_score window sector_allocation
                             is_held risk_flags) = ACTION_SELL →
     70 <= priority (generate_signal symbol value_score window
                                     sector_allocation is_held risk_flags)
     ∧ priority (generate_signal symbol value_score window sector_allocation
                                 is_held risk_flags) <= 90)
  ∧ (action (generate_signal symbol value_score window sector_allocation
                             is_held risk_flags) = ACTION_BUY →
     66 <= priority (generate_signal symbol value_score window
                                     sector_allocation is_held risk_flags)
     ∧ priority (generate_signal symbol value_score window sector_allocation
                                 is_held risk_flags) <= 70).
Proof.
  intros Hs.
  unfold generate_signal, passes_fundamental_gate, STRONG_BUY_SCORE_THRESHOLD,
    BUY_SCORE_THRESHOLD, COLLAPSE_SCORE_THRESHOLD, SELL_SCORE_THRESHOLD,
    FUNDAMENTAL_GATE_THRESHOLD.
  split_ifs; bool_props; to_props; cbn [action priority];
    try change (value_score / 10) with (value_score * (1 # 10));
    intuition (discriminate || lra).
Qed.

Lemma generate_signal_priority_witness :
  65 <= 100
  ∧ priority (generate_signal "AAPL" 65 (Some (example_window "AAPL" 0.3))
                              0.33 false
                              {| wash_sale_blocked := false;
                                 max_positions_reached := false |}) <= 70.
Proof.
  assert (H : 65 <= 100) by (vm_compute; discriminate).
  split; [exact H|].
  destruct (generate_signal_priority "AAPL" 65
              (Some (example_window "AAPL" 0.3)) 0.33 false
              {| wash_sale_blocked := false; max_positions_reached := false |} H)
    as (_ & _ & _ & Hbuy).
  apply Hbuy. vm_compute. reflexivity.
Defined.

(** The batch holds exactly the signals of the symbols of the universe
    that are not HOLD. *)
Lemma generate_all_signals_elem vs ws sa held rf (s : Signal) :
  s ∈ generate_all_signals vs ws sa held rf
  ↔ action s ≠ ACTION_HOLD
    ∧ ∃ sym, sym ∈ ALL_SYMBOLS ∧ s = signal_of vs ws sa held rf sym.
Proof.
  rewrite generate_all_signals_perm. unfold actionable_signals.
  rewrite list_elem_of_filter, list_elem_of_fmap.
  split; intros [Ha (sym & H1 & H2)]; (split; [done|]); exists sym; done.
Qed.

(** X7: every signal of the batch is the signal of its own symbol, a
    symbol of the universe; a sell is for a held symbol; a buy of either
    kind is for a symbol that is not held and has a score of at least 60
    in the score map (a symbol without score is never bought). *)
Theorem generate_all_signals_sound (value_scores : gmap string Q)
    (windows : gmap string WindowResult) (sector_allocations : gmap string Q)
    (held_symbols : gset string) (risk_flags_by_symbol : gmap string RiskFlags)
    (s : Signal) :
  s ∈ generate_all_signals value_scores windows sector_allocations
        held_symbols risk_flags_by_symbol →
  symbol s ∈ ALL_SYMBOLS
  ∧ s = signal_of value_scores windows sector_allocations held_symbols
                  risk_flags_by_symbol (symbol s)
  ∧ (action s = ACTION_SELL → symbol s ∈ held_symbols)
  ∧ (action s = ACTION_BUY ∨ action s = ACTION_STRONG_BUY →
     (symbol s ∉ held_symbols)
     ∧ ∃ score, value_scores !! symbol s = Some score
                ∧ BUY_SCORE_THRESHOLD <= score).
Proof.
  intros Hin. apply generate_all_signals_elem in Hin as (Hact & sym & Hsym & ->).
  unfold signal_of in *. rewrite generate_signal_symbol.
  split; [done|]. split; [done|].
  set (score := default 50 (value_scores !! sym)) in *.
  set (flags := default _ (risk_flags_by_symbol !! sym)) in *.
  destruct (generate_signal_decision_table sym score (windows !! sym)
              (default 0.33 (sector_allocations
                               !! default "Unknown" (SYMBOL_TO_SECTOR !! sym)))
              (bool_decide (sym ∈ held_symbols)) flags)
    as (Hsb & Hb & Hsell).
  split.
  - intros H. apply Hsell in H as [Hh _]. by apply bool_decide_eq_true in Hh.
  - intros H.
    assert (Hbuy : bool_decide (sym ∈ held_symbols) = false
                   ∧ BUY_SCORE_THRESHOLD <= score).
    { destruct H as [H|H].
      - apply Hb in H. tauto.
      - apply Hsb in H. destruct H as (? & _ & _ & H & _).
        split; [done|].
        unfold BUY_SCORE_THRESHOLD, STRONG_BUY_SCORE_THRESHOLD in *. lra. }
    destruct Hbuy as [Hh Hsc].
    split; [by apply bool_decide_eq_false in Hh|].
    unfold score in Hsc.
    destruct (value_scores !! sym) as [sc|]; [by exists sc|].
    simpl in Hsc. unfold BUY_SCORE_THRESHOLD in Hsc. lra.
Qed.

Lemma generate_all_signals_sound_witness :
  signal_of example_scores example_windows ∅ example_held ∅ "XOM"
    ∈ generate_all_signals example_scores example_windows ∅ example_held ∅
  ∧ "XOM" ∈ example_held.
Proof.
  assert (H : signal_of example_scores example_windows ∅ example_held ∅ "XOM"
              ∈ generate_all_signals example_scores example_windows ∅
                  example_held ∅).
  { apply generate_all_signals_elem. split; [by vm_compute|].
    exists "XOM". split; [|done]. apply (bool_decide_unpack _). by vm_compute. }
  split; [exact H|].
  destruct (generate_all_signals_sound _ _ _ _ _ _ H) as (_ & _ & Hsell & _).
  apply Hsell. vm_compute. reflexivity.
Defined.

End SignalMore.

(** ** Sector allocation, continued *)

Section SectorRotationMore.
Import Config Universe SectorRotation.

Lemma ltb_proper : Proper (Qeq ==> Qeq ==> eq) Py.ltb.
Proof. intros x x' Hx y y' Hy. unfold Py.ltb. by rewrite Hx, Hy. Qed.

Lemma min_proper : Proper (Qeq ==> Qeq ==> Qeq) Py.min.
Proof.
  intros a a' Ha b b' Hb. unfold Py.min.
  rewrite (ltb_proper b b' Hb a a' Ha). by destruct (_ <? _).
Qed.

Lemma max_proper : Proper (Qeq ==> Qeq ==> Qeq) Py.max.
Proof.
  intros a a' Ha b b' Hb. unfold Py.max, Py.gtb.
  rewrite (ltb_proper a a' Ha b b' Hb). by destruct (_ <? _).
Qed.

Lemma clamp_proper : Proper (Qeq ==> Qeq) clamp.
Proof.
  intros v v' Hv. unfold clamp.
  apply max_proper; [reflexivity|]. by apply min_proper.
Qed.

Lemma min_mono (b v v' : Q) : v <= v' → Py.min b v <= Py.min b v'.
Proof. intros H. unfold Py.min. split_ifs; to_props; lra. Qed.

Lemma max_mono (a v v' : Q) : v <= v' → Py.max a v <= Py.max a v'.
Proof. intros H. unfold Py.max, Py.gtb. split_ifs; to_props; lra. Qed.

Lemma clamp_mono (v v' : Q) : v <= v' → clamp v <= clamp v'.
Proof. intros H. unfold clamp. by apply max_mono, min_mono. Qed.

Lemma clamp_pos (v : Q) : 0 < clamp v.
Proof.
  eapply Qlt_le_trans; [|apply clamp_band]. by vm_compute.
Qed.

(** The least element found by [min] is below every element. *)
Lemma foldl_min_le (l : list Q) (x : Q) :
  foldl Py.min x l <= x ∧ Forall (λ y, foldl Py.min x l <= y) l.
Proof.
  revert x. induction l as [|y l IH]; intros x; simpl.
  - split; [apply Qle_refl | constructor].
  - destruct (IH (Py.min x y)) as [H1 H2].
    destruct (min_spec x y) as [Hx Hy].
    split; [by eapply Qle_trans|].
    constructor; [by eapply Qle_trans | done].
Qed.

Lemma min_list_le (l : list Q) (m : Q) :
  Py.min_list l = Some m → Forall (λ y, m <= y) l.
Proof.
  destruct l as [|x l]; [done|]. simpl. intros [= <-].
  destruct (foldl_min_le l x). by constructor.
Qed.

Lemma sum_nonneg (l : list Q) : Forall (λ v, 0 <= v) l → 0 <= Py.sum l.
Proof.
  induction 1 as [|x l Hx _ IH]; [by vm_compute|].
  rewrite sum_cons. lra.
Qed.

Lemma elem_le_sum (l : list Q) (x : Q) :
  Forall (λ v, 0 <= v) l → x ∈ l → x <= Py.sum l.
Proof.
  intros Hl Hx. induction Hl as [|y l Hy Hl IH]; [by apply elem_of_nil in Hx|].
  rewrite sum_cons. apply sum_nonneg in Hl as Hs.
  apply elem_of_cons in Hx as [->|Hx]; [lra|].
  specialize (IH Hx). lra.
Qed.

Lemma sum_const (l : list Q) (c : Q) :
  Forall (λ v, v == c) l → Py.sum l == inject_Z (Z.of_nat (length l)) * c.
Proof.
  induction 1 as [|x l Hx _ IH]; simpl length.
  - rewrite sum_nil. simpl. ring.
  - rewrite sum_cons, IH, Hx, Nat2Z.inj_succ, <- Z.add_1_r, inject_Z_plus.
    ring.
Qed.

Lemma values_elem {A} (d : gmap string A) (s : string) (v : A) :
  d !! s = Some v → v ∈ Py.values d.
Proof.
  intros H. unfold Py.values. apply list_elem_of_fmap. exists (s, v).
  split; [done|]. by apply elem_of_map_to_list.
Qed.

Lemma values_Forall {A} (P : A → Prop) (d : gmap string A) :
  (∀ s v, d !! s = Some v → P v) → Forall P (Py.values d).
Proof.
  intros H. apply Forall_forall. intros v Hv. unfold Py.values in Hv.
  apply list_elem_of_fmap in Hv as [[s v'] [-> Hv]].
  apply elem_of_map_to_list in Hv. by eapply H.
Qed.

Lemma values_length {A} (d : gmap string A) : length (Py.values d) = size d.
Proof. unfold Py.values. by rewrite length_fmap, length_map_to_list. Qed.

(** What [compute_sector_allocations] returns for one sector. *)
Lemma compute_sector_allocations_lookup (performances : gmap string Q)
    (s : string) (v : Q) :
  performances ≠ ∅ →
  compute_sector_allocations performances !! s = Some v →
  ∃ c, clamped_allocations performances !! s = Some c
       ∧ v = c / Py.sum (Py.values (clamped_allocations performances)).
Proof.
  intros Hne. unfold compute_sector_allocations.
  destruct (decide (performances = ∅)); [done|].
  rewrite lookup_fmap. intros H.
  destruct (clamped_allocations performances !! s) as [c|]; [|done].
  exists c. split; [done|]. by injection H as <-.
Qed.

(** What the first four steps give for one sector. *)
Lemma clamped_allocations_lookup (performances : gmap string Q)
    (s : string) (c : Q) :
  clamped_allocations performances !! s = Some c →
  ∃ r, performances !! s = Some r
       ∧ c = clamp
               ((- r - default 0 (Py.min_list (Py.values (Qopp <$> performances)))
                 + 0.01)
                / Py.sum (Py.values ((λ v, v - default 0 (Py.min_list
                                        (Py.values (Qopp <$> performances)))
                                           + 0.01)
                                       <$> (Qopp <$> performances)))).
Proof.
  unfold clamped_allocations. rewrite !lookup_fmap.
  destruct (performances !! s) as [r|]; [|done].
  simpl. intros [= <-]. by exists r.
Qed.

(** The shifted weights are at least 0.01, so their sum is not negative. *)
Lemma shifted_total_nonneg (performances : gmap string Q) :
  0 <= Py.sum (Py.values ((λ v, v - default 0 (Py.min_list
                                  (Py.values (Qopp <$> performances))) + 0.01)
                           <$> (Qopp <$> performances))).
Proof.
  apply sum_nonneg. rewrite values_fmap. apply Forall_fmap.
  destruct (Py.min_list (Py.values (Qopp <$> performances))) as [m|] eqn:E.
  - apply min_list_le in E. eapply Forall_impl; [exact E|].
    intros v Hv. unfold compose. cbn [default from_option id] in *. lra.
  - destruct (Py.values (Qopp <$> performances)); [constructor|done].
Qed.

Lemma sector_allocations_sum_one (performances : gmap string Q) :
  performances ≠ ∅ →
  Py.sum (Py.values (compute_sector_allocations performances)) == 1.
Proof.
  intros Hne. pose proof (clamped_total_pos _ Hne) as HT.
  unfold compute_sector_allocations.
  destruct (decide (performances = ∅)); [done|].
  rewrite values_fmap, sum_scale. apply Qmult_inv_r. lra.
Qed.

(** X8: with no performance data at all the allocation falls back to
    equal weights: the three sectors of the universe get one third each,
    which sums to 1. *)
Theorem compute_sector_allocations_fallback (s : string) :
  Py.sum (Py.values (compute_sector_allocations ∅)) == 1
  ∧ (s ∈ SECTOR_NAMES →
     ∃ v, compute_sector_allocations ∅ !! s = Some v ∧ v == 1 # 3)
  ∧ (s ∉ SECTOR_NAMES → compute_sector_allocations ∅ !! s = None).
Proof.
  split; [by vm_compute|]. split.
  - intros Hs. unfold SECTOR_NAMES in Hs. simpl in Hs.
    repeat (apply elem_of_cons in Hs as [->|Hs];
            [eexists; split; [by vm_compute | reflexivity]|]).
    by apply elem_of_nil in Hs.
  - intros Hs. unfold compute_sector_allocations.
    rewrite decide_True by done.
    apply not_elem_of_list_to_map_1. rewrite <- list_fmap_compose.
    intros H. apply Hs. apply list_elem_of_fmap in H as (s' & -> & H).
    done.
Qed.

Lemma compute_sector_allocations_fallback_witness :
  "Energy" ∈ SECTOR_NAMES
  ∧ ∃ v, compute_sector_allocations ∅ !! "Energy" = Some v ∧ v == 1 # 3.
Proof.
  assert (H : "Energy" ∈ SECTOR_NAMES).
  { apply (bool_decide_unpack _). vm_compute. exact I. }
  split; [exact H|].
  exact (proj1 (proj2 (compute_sector_allocations_fallback "Energy")) H).
Defined.

(** X9: the allocation is inverse to performance: of two sectors the one
    that performed no better gets no smaller a fraction. *)
Theorem compute_sector_allocations_inverse (performances : gmap string Q)
    (s1 s2 : string) (r1 r2 a1 a2 : Q) :
  performances !! s1 = Some r1 → performances !! s2 = Some r2 →
  compute_sector_allocations performances !! s1 = Some a1 →
  compute_sector_allocations performances !! s2 = Some a2 →
  r1 <= r2 → a2 <= a1.
Proof.
  intros Hr1 Hr2 Ha1 Ha2 Hle.
  assert (Hne : performances ≠ ∅) by (intros ->; by rewrite lookup_empty in Hr1).
  pose proof (clamped_total_pos _ Hne) as HT.
  apply compute_sector_allocations_lookup in Ha1 as (c1 & Hc1 & ->); [|done].
  apply compute_sector_allocations_lookup in Ha2 as (c2 & Hc2 & ->); [|done].
  apply clamped_allocations_lookup in Hc1 as (r1' & Hr1' & ->).
  apply clamped_allocations_lookup in Hc2 as (r2' & Hr2' & ->).
  rewrite Hr1 in Hr1'. rewrite Hr2 in Hr2'.
  injection Hr1' as <-. injection Hr2' as <-.
  pose proof (shifted_total_nonneg performances) as HS.
  unfold Qdiv at 1 3. apply Qmult_le_compat_r;
    [|by apply Qlt_le_weak, Qinv_lt_0_compat].
  apply clamp_mono. unfold Qdiv. apply Qmult_le_compat_r; [lra|].
  by apply Qinv_le_0_compat.
Qed.

Lemma compute_sector_allocations_inverse_witness :
  example_performances !! "Tech" = Some (-0.10)
  ∧ example_performances !! "Energy" = Some 0.05
  ∧ -0.10 <= 0.05
  ∧ (15000000 # 85000000) <= (55000000 # 85000000).
Proof.
  assert (H1 : example_performances !! "Tech" = Some (-0.10))
    by (vm_compute; reflexivity).
  assert (H2 : example_performances !! "Energy" = Some 0.05)
    by (vm_compute; reflexivity).
  assert (H3 : compute_sector_allocations example_performances !! "Tech"
               = Some (55000000 # 85000000)) by (vm_compute; reflexivity).
  assert (H4 : compute_sector_allocations example_performances !! "Energy"
               = Some (15000000 # 85000000)) by (vm_compute; reflexivity).
  assert (H5 : -0.10 <= 0.05) by (vm_compute; discriminate).
  split; [exact H1|]. split; [exact H2|]. split; [exact H5|].
  exact (compute_sector_allocations_inverse _ _ _ _ _ _ _ H1 H2 H3 H4 H5).
Defined.

(** X10: every fraction of a non-empty performance map is positive and
    at most 1. *)
Theorem compute_sector_allocations_fraction (performances : gmap string Q)
    (s : string) (v : Q) :
  performances ≠ ∅ →
  compute_sector_allocations performances !! s = Some v →
  0 < v ∧ v <= 1.
Proof.
  intros Hne Hv. pose proof (clamped_total_pos _ Hne) as HT.
  apply compute_sector_allocations_lookup in Hv as (c & Hc & ->); [|done].
  assert (Hpos : 0 < c).
  { unfold clamped_allocations in Hc. rewrite lookup_fmap in Hc.
    destruct (_ !! s); [|done]. injection Hc as <-. apply clamp_pos. }
  assert (Hle : c <= Py.sum (Py.values (clamped_allocations performances))).
  { apply elem_le_sum; [|by eapply values_elem].
    unfold clamped_allocations. rewrite values_fmap.
    apply Forall_fmap, Forall_true. intros x. simpl.
    apply Qlt_le_weak, clamp_pos. }
  split.
  - apply Qlt_shift_div_l; [done|]. lra.
  - apply Qle_shift_div_r; [done|]. lra.
Qed.

Lemma compute_sector_allocations_fraction_witness :
  example_performances ≠ ∅
  ∧ 0 < (55000000 # 85000000) ∧ (55000000 # 85000000) <= 1.
Proof.
  assert (H1 : example_performances ≠ ∅).
  { apply (bool_decide_unpack _). vm_compute. exact I. }
  assert (H2 : compute_sector_allocations example_performances !! "Tech"
               = Some (55000000 # 85000000)) by (vm_compute; reflexivity).
  split; [exact H1|].
  exact (compute_sector_allocations_fraction _ _ _ H1 H2).
Defined.

End SectorRotationMore.

Section SectorPerformanceFacts.
Import Config Universe SectorRotation.

Lemma tied_performances_equal_weights (performances : gmap string Q)
    (r : Q) (s : string) (v : Q) :
  performances ≠ ∅ →
  (∀ s' r', performances !! s' = Some r' → r' == r) →
  compute_sector_allocations performances !! s = Some v →
  v == 1 / inject_Z (Z.of_nat (size performances)).
Proof.
  intros Hne Hall Hv.
  pose proof (clamped_total_pos _ Hne) as HT.
  apply compute_sector_allocations_lookup in Hv as (c & Hc & ->); [|done].
  assert (Hsame : Forall (λ c', c' == c)
                    (Py.values (clamped_allocations performances))).
  { apply values_Forall. intros s' c' Hc'.
    apply clamped_allocations_lookup in Hc as (r1 & Hr1 & ->).
    apply clamped_allocations_lookup in Hc' as (r2 & Hr2 & ->).
    apply clamp_proper. apply Hall in Hr1, Hr2. by rewrite Hr1, Hr2. }
  apply sum_const in Hsame.
  rewrite values_length in Hsame.
  assert (Hsize : size (clamped_allocations performances) = size performances).
  { unfold clamped_allocations. by rewrite !map_size_fmap. }
  rewrite Hsize in Hsame.
  assert (Hc0 : 0 < c).
  { unfold clamped_allocations in Hc. rewrite lookup_fmap in Hc.
    destruct (_ !! s); [|done]. injection Hc as <-. apply clamp_pos. }
  assert (Hn : 0 < inject_Z (Z.of_nat (size performances))).
  { change 0 with (inject_Z 0). rewrite <- Zlt_Qlt.
    assert (size performances ≠ 0%nat) by (by intros ?%map_size_empty_inv).
    lia. }
  rewrite Hsame. field. split; lra.
Qed.

(** X11: when every sector performed alike, every sector gets the same
    fraction, one over the number of sectors, whether or not that lies in
    the band. *)
Theorem compute_sector_allocations_tie (performances : gmap string Q)
    (r : Q) (s : string) (v : Q) :
  performances ≠ ∅ →
  (∀ s' r', performances !! s' = Some r' → r' == r) →
  compute_sector_allocations performances !! s = Some v →
  v == 1 / inject_Z (Z.of_nat (size performances)).
Proof.
  apply tied_performances_equal_weights.
Qed.

Lemma compute_sector_allocations_tie_witness :
  (∀ s' r', (<["Tech" := 0.02]> (<["Energy" := 0.02]> ∅) : gmap string Q)
              !! s' = Some r' → r' == 0.02)
  ∧ (<["Tech" := 0.02]> (<["Energy" := 0.02]> ∅) : gmap string Q) ≠ ∅
  ∧ ∃ v, compute_sector_allocations
           (<["Tech" := 0.02]> (<["Energy" := 0.02]> ∅)) !! "Tech" = Some v
         ∧ v == 1 / inject_Z (Z.of_nat 2).
Proof.
  assert (Hne : (<["Tech" := 0.02]> (<["Energy" := 0.02]> ∅) : gmap string Q)
                ≠ ∅).
  { apply (bool_decide_unpack _). vm_compute. exact I. }
  assert (H : ∀ s' r', (<["Tech" := 0.02]> (<["Energy" := 0.02]> ∅)
                        : gmap string Q) !! s' = Some r' → r' == 0.02).
  { intros s' r' Hs. apply lookup_insert_Some in Hs as [[_ <-]|[_ Hs]];
      [reflexivity|].
    apply lookup_insert_Some in Hs as [[_ <-]|[_ Hs]]; [reflexivity|].
    by rewrite lookup_empty in Hs. }
  split; [exact H|]. split; [exact Hne|].
  assert (Hv : ∃ v, compute_sector_allocations
                      (<["Tech" := 0.02]> (<["Energy" := 0.02]> ∅)) !! "Tech"
                    = Some v).
  { eexists. vm_compute. reflexivity. }
  destruct Hv as [v Hv]. exists v. split; [exact Hv|].
  exact (compute_sector_allocations_tie _ _ _ _ Hne H Hv).
Defined.

(** The performance map has the sectors of the universe for keys. *)
Lemma compute_sector_performance_dom (historical : gmap string (list Q))
    (period : nat) :
  dom (compute_sector_performance historical period)
  = list_to_set SECTOR_NAMES.
Proof.
  unfold compute_sector_performance. rewrite dom_fmap_L.
  generalize (map_to_list historical). intros l.
  assert (H0 : dom (list_to_map ((λ s, (s, [])) <$> SECTOR_NAMES)
                    : gmap string (list Q))
               = list_to_set SECTOR_NAMES).
  { rewrite dom_list_to_map_L, <- list_fmap_compose. f_equal. }
  revert H0.
  generalize (list_to_map ((λ s, (s, [])) <$> SECTOR_NAMES)
              : gmap string (list Q)).
  induction l as [|[sym df] l IH]; intros acc Hacc; cbn [foldl];
    [exact Hacc|].
  apply IH.
  destruct (length df <? 2)%nat; [done|].
  destruct (SYMBOL_TO_SECTOR !! sym); [|done].
  destruct (length _ <? 2)%nat; [done|].
  destruct (head _); [|done]. destruct (last _); [|done].
  by rewrite dom_alter_L.
Qed.

(** X12: whatever the price history, the performance map has exactly the
    three sectors of the universe, so the allocation computed from it has
    them too, never takes the equal weight fallback, and sums to 1. *)
Theorem sector_pipeline_allocations (historical : gmap string (list Q))
    (period : nat) (s : string) :
  (is_Some (compute_sector_performance historical period !! s)
   ↔ s ∈ SECTOR_NAMES)
  ∧ (is_Some (compute_sector_allocations
                (compute_sector_performance historical period) !! s)
     ↔ s ∈ SECTOR_NAMES)
  ∧ compute_sector_performance historical period ≠ ∅
  ∧ Py.sum (Py.values (compute_sector_allocations
                         (compute_sector_performance historical period)))
    == 1.
Proof.
  pose proof (compute_sector_performance_dom historical period) as Hdom.
  assert (Hkeys : ∀ s', is_Some (compute_sector_performance historical period
                                   !! s') ↔ s' ∈ SECTOR_NAMES).
  { intros s'. rewrite <- elem_of_dom, Hdom. apply elem_of_list_to_set. }
  assert (Hne : compute_sector_performance historical period ≠ ∅).
  { intros He. assert (Ht : "Tech" ∈ SECTOR_NAMES) by (by left).
    apply Hkeys in Ht as [x Hx]. by rewrite He, lookup_empty in Hx. }
  split; [apply Hkeys|]. split; [|split; [done|]].
  - rewrite <- Hkeys. unfold compute_sector_allocations.
    destruct (decide _); [done|].
    unfold clamped_allocations. rewrite !lookup_fmap, !fmap_is_Some. done.
  - by apply sector_allocations_sum_one.
Qed.



End SectorPerformanceFacts.

(** ** Wash sales and settlement, continued *)

Section RiskManagerMore.
Import Config Universe TradingWindow RiskManager ValueScorer SignalGenerator.

Lemma foldl_delete_lookup_gen {K} `{Countable K} {A} (ks : list K)
    (d : gmap K A) (k : K) :
  foldl (λ b key, delete key b) d ks !! k
  = if decide (k ∈ ks) then None else d !! k.
Proof.
  revert d. induction ks as [|x ks IH]; intros d; cbn [foldl].
  - rewrite decide_False; [done|]. apply not_elem_of_nil.
  - rewrite IH. destruct (decide (k ∈ ks)) as [Hin|Hout].
    + rewrite decide_True; [done|by right].
    + destruct (decide (k = x)) as [->|Hne].
      * rewrite lookup_delete_eq, decide_True; [done|by left].
      * rewrite lookup_delete_ne by done.
        rewrite decide_False; [done|].
        intros [?|?]%elem_of_cons; done.
Qed.

(** The purge keeps exactly the blocks that expire after [now]. *)
Lemma purge_blocked (now : Z) (self : WashSaleTracker) :
  blocked (_purge_expired now self)
  = filter (λ item : string * Z, (now < item.2)%Z) (blocked self).
Proof.
  unfold _purge_expired.
  set (expired := (filter _ (map_to_list (blocked self))).*1).
  assert (Hb : blocked (match expired with
                        | [] => {| blocked := foldl (λ b s, delete s b)
                                                (blocked self) expired;
                                   wash_sale_file := wash_sale_file self |}
                        | _ => _save {| blocked := foldl (λ b s, delete s b)
                                                     (blocked self) expired;
                                        wash_sale_file := wash_sale_file self |}
                        end)
               = foldl (λ b s, delete s b) (blocked self) expired).
  { by destruct expired. }
  rewrite Hb. apply map_eq. intros k. rewrite foldl_delete_lookup_gen.
  destruct (decide _) as [Hin|Hout].
  - symmetry. apply map_lookup_filter_None.
    apply list_elem_of_fmap in Hin as [[k' e] [-> Hin]].
    apply list_elem_of_filter in Hin as [Hk Hin]. cbn [fst snd] in *.
    apply elem_of_map_to_list in Hin. right. intros x Hx.
    rewrite Hin in Hx. injection Hx as <-. cbn [snd]. lia.
  - destruct (blocked self !! k) as [e|] eqn:E.
    + symmetry. apply map_lookup_filter_Some. split; [done|]. cbn [snd].
      destruct (decide (now < e)%Z) as [|Hk]; [done|].
      exfalso. apply Hout. apply list_elem_of_fmap. exists (k, e).
      split; [done|]. apply list_elem_of_filter. split; [cbn [snd]; lia|].
      by apply elem_of_map_to_list.
    + symmetry. apply map_lookup_filter_None. by left.
Qed.

(** The purge writes the file when it removed a block, and only then. *)
Lemma purge_file (now : Z) (self : WashSaleTracker) :
  wash_sale_file (_purge_expired now self)
  = if decide (filter (λ item : string * Z, (now < item.2)%Z) (blocked self)
               = blocked self)
    then wash_sale_file self
    else Py.Stored (blocked (_purge_expired now self)).
Proof.
  pose proof (purge_blocked now self) as Hb. revert Hb.
  unfold _purge_expired.
  set (expired := (filter _ (map_to_list (blocked self))).*1).
  destruct expired as [|s l] eqn:E; cbn [blocked wash_sale_file _save foldl].
  - intros <-. by rewrite decide_True.
  - intros Hb. rewrite decide_False; [done|].
    intros Heq. rewrite <- Hb in Heq.
    assert (Hs : s ∈ expired) by (rewrite E; by left).
    unfold expired in Hs. apply list_elem_of_fmap in Hs as [[s' e] [-> Hs]].
    apply list_elem_of_filter in Hs as [_ Hs].
    apply elem_of_map_to_list in Hs. cbn [fst] in *.
    apply (f_equal (lookup s')) in Heq.
    change (foldl (λ b s0, delete s0 b) (delete s' (blocked self)) l)
      with (foldl (λ b s0, delete s0 b) (blocked self) (s' :: l)) in Heq.
    rewrite foldl_delete_lookup_gen, decide_True, Hs in Heq; [done|by left].
Qed.

Lemma record_sale_blocks_until_expiry (now t : Z) (symbol : string) (loss : Q)
    (self : WashSaleTracker) :
  WASH_SALE_LOSS_THRESHOLD <= loss →
  ((t < now + block_duration)%Z →
   (is_blocked t symbol (record_sale now symbol loss self)).1 = true)
  ∧ ((now + block_duration ≤ t)%Z →
     (is_blocked t symbol (record_sale now symbol loss self)).1 = false
     ∧ blocked (is_blocked t symbol (record_sale now symbol loss self)).2
         !! symbol = None).
Proof.
  intros Hloss. apply leb_le in Hloss.
  unfold is_blocked. cbn [fst snd]. rewrite purge_blocked.
  unfold record_sale, Py.geb. rewrite Hloss. cbn [blocked _save].
  fold block_duration. split; intros Ht.
  - apply bool_decide_eq_true. exists (now + block_duration)%Z.
    apply map_lookup_filter_Some. split; [apply lookup_insert_eq|].
    cbn [snd]. lia.
  - assert (Hnone : filter (λ item : string * Z, (t < item.2)%Z)
                      (<[symbol := (now + block_duration)%Z]> (blocked self))
                      !! symbol = None).
    { apply map_lookup_filter_None. right. intros e.
      rewrite lookup_insert_eq. intros [= <-]. cbn [snd]. lia. }
    split; [|done]. apply bool_decide_eq_false. rewrite Hnone.
    by intros [? ?].
Qed.

(** X14: a sale at a loss of at least the threshold blocks the symbol:
    [is_blocked] answers yes at every instant before thirty days have
    passed, and from the thirtieth day on it answers no and the entry is
    purged. *)
Theorem wash_sale_block_window (now t : Z) (symbol : string) (loss : Q)
    (self : WashSaleTracker) :
  WASH_SALE_LOSS_THRESHOLD <= loss →
  ((t < now + block_duration)%Z →
   (is_blocked t symbol (record_sale now symbol loss self)).1 = true)
  ∧ ((now + block_duration ≤ t)%Z →
     (is_blocked t symbol (record_sale now symbol loss self)).1 = false
     ∧ blocked (is_blocked t symbol (record_sale now symbol loss self)).2
         !! symbol = None).
Proof.
  apply record_sale_blocks_until_expiry.
Qed.

Lemma wash_sale_block_window_witness :
  WASH_SALE_LOSS_THRESHOLD <= 150
  ∧ (example_now + 86400000000 < example_now + block_duration)%Z
  ∧ (is_blocked (example_now + 86400000000) "XOM"
       (record_sale example_now "XOM" 150 example_wash_tracker)).1 = true.
Proof.
  assert (H : WASH_SALE_LOSS_THRESHOLD <= 150) by (vm_compute; discriminate).
  assert (Ht : (example_now + 86400000000 < example_now + block_duration)%Z)
    by (vm_compute; reflexivity).
  split; [exact H|]. split; [exact Ht|].
  exact (proj1 (wash_sale_block_window example_now (example_now + 86400000000)
                  "XOM" 150 example_wash_tracker H) Ht).
Defined.

(** X15: a sale at a gain, or at a loss below the threshold, changes
    neither the tracker nor its file; a loss that reaches the threshold
    sets the expiry of that symbol only and writes the file. *)
Theorem record_sale_threshold (now : Z) (symbol other : string) (loss : Q)
    (self : WashSaleTracker) :
  (loss < WASH_SALE_LOSS_THRESHOLD → record_sale now symbol loss self = self)
  ∧ (WASH_SALE_LOSS_THRESHOLD <= loss →
     blocked (record_sale now symbol loss self) !! symbol
     = Some (now + block_duration)%Z
     ∧ (other ≠ symbol →
        blocked (record_sale now symbol loss self) !! other
        = blocked self !! other)
     ∧ wash_sale_file (record_sale now symbol loss self)
       = Py.Stored (blocked (record_sale now symbol loss self))).
Proof.
  unfold record_sale, Py.geb. split; intros H.
  - apply leb_gt in H. by rewrite H.
  - apply leb_le in H. rewrite H. cbn [blocked wash_sale_file _save].
    split; [apply lookup_insert_eq|]. split; [|done].
    intros Hne. by apply lookup_insert_ne.
Qed.

Lemma record_sale_threshold_witness :
  99.99 < WASH_SALE_LOSS_THRESHOLD
  ∧ WASH_SALE_LOSS_THRESHOLD <= 100
  ∧ record_sale example_now "XOM" 99.99 example_wash_tracker
    = example_wash_tracker
  ∧ blocked (record_sale example_now "XOM" 100 example_wash_tracker) !! "XOM"
    = Some (example_now + block_duration)%Z.
Proof.
  assert (H1 : 99.99 < WASH_SALE_LOSS_THRESHOLD) by (vm_compute; reflexivity).
  assert (H2 : WASH_SALE_LOSS_THRESHOLD <= 100) by (vm_compute; discriminate).
  split; [exact H1|]. split; [exact H2|]. split.
  - exact (proj1 (record_sale_threshold example_now "XOM" "XOM" 99.99
                    example_wash_tracker) H1).
  - exact (proj1 (proj2 (record_sale_threshold example_now "XOM" "XOM" 100
                           example_wash_tracker) H2)).
Defined.

(** X16: the wash sale blocks survive a restart.  A tracker just loaded
    holds what its file holds, and [record_sale], [is_blocked] and
    [get_blocked_symbols] keep it so: each writes the file whenever it
    changes the blocks. *)
Theorem wash_sale_tracker_survives_restart (file : Py.FileState (gmap string Z))
    (now : Z) (symbol : string) (loss : Q) (self : WashSaleTracker) :
  survives_restart (WashSaleTracker_init file)
  ∧ (survives_restart self →
     survives_restart (record_sale now symbol loss self)
     ∧ survives_restart (is_blocked now symbol self).2
     ∧ survives_restart (get_blocked_symbols now self).2).
Proof.
  split; [by destruct file|]. intros Hs.
  assert (Hp : survives_restart (_purge_expired now self)).
  { unfold survives_restart. rewrite purge_file.
    destruct (decide _) as [Heq|_]; [|done].
    rewrite purge_blocked, Heq. exact Hs. }
  split; [|by split].
  unfold record_sale. by destruct (_ >=? _).
Qed.

Lemma wash_sale_tracker_survives_restart_witness :
  survives_restart example_wash_tracker
  ∧ survives_restart (record_sale example_now "XOM" 150 example_wash_tracker).
Proof.
  destruct (wash_sale_tracker_survives_restart Py.Absent example_now "XOM" 150
              example_wash_tracker) as [H0 H].
  split; [exact H0|]. exact (proj1 (H H0)).
Defined.

(** X17: while a symbol is blocked after a loss, the signal of that symbol,
    when it is not held, is HOLD whatever its score and window: the
    symbol is not bought back within the thirty days. *)
Theorem wash_sale_block_prevents_buy (now t : Z) (symbol : string) (loss : Q)
    (self : WashSaleTracker) (num_positions : Z) (value_score : Q)
    (window : option WindowResult) (sector_allocation : Q) :
  WASH_SALE_LOSS_THRESHOLD <= loss →
  (t < now + block_duration)%Z →
  action (generate_signal symbol value_score window sector_allocation false
            (get_risk_flags_of t symbol num_positions
               (record_sale now symbol loss self)).1)
  = ACTION_HOLD.
Proof.
  intros Hloss Ht.
  pose proof (proj1 (record_sale_blocks_until_expiry now t symbol loss self
                      Hloss) Ht)
    as Hb.
  unfold get_risk_flags_of.
  destruct (is_blocked t symbol (record_sale now symbol loss self))
    as [b self'].
  cbn [fst] in *. subst b. unfold generate_signal, get_risk_flags.
  cbn [wash_sale_blocked]. by destruct (negb _).
Qed.

Lemma wash_sale_block_prevents_buy_witness :
  WASH_SALE_LOSS_THRESHOLD <= 150
  ∧ (example_now + 86400000000 < example_now + block_duration)%Z
  ∧ action (generate_signal "XOM" 90 (Some (example_window "XOM" 0.1)) 0.33
              false
              (get_risk_flags_of (example_now + 86400000000) "XOM" 3
                 (record_sale example_now "XOM" 150 example_wash_tracker)).1)
    = ACTION_HOLD.
Proof.
  assert (H : WASH_SALE_LOSS_THRESHOLD <= 150) by (vm_compute; discriminate).
  assert (Ht : (example_now + 86400000000 < example_now + block_duration)%Z)
    by (vm_compute; reflexivity).
  split; [exact H|]. split; [exact Ht|].
  exact (wash_sale_block_prevents_buy example_now (example_now + 86400000000)
           "XOM" 150 example_wash_tracker 3 90
           (Some (example_window "XOM" 0.1)) 0.33 H Ht).
Defined.

(** X18: [get_unavailable_cash] keeps exactly the entries dated after
    today, and asking again on the same day gives the same total and
    leaves the tracker as the first call left it. *)
Theorem get_unavailable_cash_idempotent (today d : Z) (pending : gmap Z Q) :
  (get_unavailable_cash today pending).2 !! d
  = (if decide (today < d)%Z then pending !! d else None)
  ∧ (get_unavailable_cash today (get_unavailable_cash today pending).2).2
    = (get_unavailable_cash today pending).2
  ∧ (get_unavailable_cash today (get_unavailable_cash today pending).2).1
    == (get_unavailable_cash today pending).1.
Proof.
  destruct (get_unavailable_cash_unsettled today pending) as [H2 H1].
  destruct (get_unavailable_cash_unsettled today
              (get_unavailable_cash today pending).2) as [H2' H1'].
  assert (Hidem : unsettled today (unsettled today pending)
                  = unsettled today pending).
  { unfold unsettled. apply map_eq. intros k. rewrite !map_lookup_filter.
    destruct (pending !! k) as [a|]; [|done]. cbn [mbind option_bind].
    destruct (decide (today < k)%Z) as [Hk|Hk].
    - rewrite !option_guard_True by done. cbn [mbind option_bind].
      by rewrite option_guard_True.
    - by rewrite !option_guard_False. }
  split; [|split].
  - rewrite H2. unfold unsettled. rewrite map_lookup_filter.
    destruct (decide (today < d)%Z) as [Hd|Hd];
      destruct (pending !! d) as [a|]; cbn [mbind option_bind]; try done.
    + by rewrite option_guard_True.
    + by rewrite option_guard_False.
  - by rewrite H2', H2, Hidem.
  - by rewrite H1', H1, H2, Hidem.
Qed.

End RiskManagerMore.

(** ** Order execution, continued *)

Section OrderExecutorMore.
Import Config OrderExecutor.

Lemma compute_position_size_unfold sym price pv alloc n :
  0 < price → 0 < pv →
  compute_position_size sym price pv alloc n
  = Z.max (Qfloor (position_budget pv alloc n / price)) 0.
Proof.
  intros Hp Hv. unfold compute_position_size, position_budget.
  apply leb_gt in Hp, Hv. rewrite Hp, Hv. cbn [orb].
  by rewrite int_floordiv.
Qed.

(** X19: the sized quantity is never negative; it is 0 when the price or
    the portfolio value is not positive, and when the allocation is not
    positive; otherwise it is the largest whole number of shares the
    position budget pays for. *)
Theorem compute_position_size_largest (symbol : string)
    (price portfolio_value sector_allocation : Q) (num_sector_stocks : Z) :
  (0 ≤ compute_position_size symbol price portfolio_value sector_allocation
                             num_sector_stocks)%Z
  ∧ (price <= 0 ∨ portfolio_value <= 0 →
     compute_position_size symbol price portfolio_value sector_allocation
                           num_sector_stocks = 0%Z)
  ∧ (0 < price → 0 < portfolio_value →
     (sector_allocation <= 0 →
      compute_position_size symbol price portfolio_value sector_allocation
                            num_sector_stocks = 0%Z)
     ∧ (0 <= sector_allocation →
        inject_Z (compute_position_size symbol price portfolio_value
                                        sector_allocation num_sector_stocks)
        * price
        <= position_budget portfolio_value sector_allocation num_sector_stocks
        ∧ position_budget portfolio_value sector_allocation num_sector_stocks
          < inject_Z (compute_position_size symbol price portfolio_value
                                            sector_allocation num_sector_stocks
                      + 1) * price)).
Proof.
  split; [|split].
  - unfold compute_position_size. destruct (_ || _); lia.
  - intros H. unfold compute_position_size.
    destruct H as [H|H]; apply leb_le in H; rewrite H; [done|].
    by rewrite orb_true_r.
  - intros Hp Hv. rewrite compute_position_size_unfold by done.
    set (budget := position_budget _ _ _).
    assert (Hn : 0 < inject_Z (Z.max num_sector_stocks 1)).
    { change 0 with (inject_Z 0). rewrite <- Zlt_Qlt. lia. }
    assert (Hsign : sector_allocation <= 0 → budget <= 0).
    { intros Ha. unfold budget, position_budget.
      eapply Qle_trans; [apply (proj1 (min_spec _ _))|].
      apply Qle_shift_div_r; [done|]. rewrite Qmult_0_l.
      assert (0 <= portfolio_value * - sector_allocation);
        [apply Qmult_le_0_compat; lra | lra]. }
    assert (Hpos : 0 <= sector_allocation → 0 <= budget).
    { intros Ha. unfold budget, position_budget, Py.min, MAX_POSITION_PCT.
      assert (0 <= portfolio_value * sector_allocation
                   / inject_Z (Z.max num_sector_stocks 1)).
      { apply Qle_shift_div_l; [done|]. rewrite Qmult_0_l.
        apply Qmult_le_0_compat; lra. }
      destruct (_ <? _); lra. }
    assert (Hq : budget / price * price == budget).
    { rewrite Qmult_comm. apply Qmult_div_r. lra. }
    pose proof (Qfloor_le (budget / price)) as Hfl.
    pose proof (Qlt_floor (budget / price)) as Hfu.
    split.
    + intros Ha. specialize (Hsign Ha).
      assert (Hle : (Qfloor (budget / price) ≤ 0)%Z); [|lia].
      rewrite <- (Qfloor_Z 0). apply Qfloor_resp_le.
      apply Qle_shift_div_r; [done|]. by rewrite Qmult_0_l.
    + intros Ha. specialize (Hpos Ha).
      assert (Hge : (0 ≤ Qfloor (budget / price))%Z).
      { rewrite <- (Qfloor_Z 0). apply Qfloor_resp_le.
        apply Qle_shift_div_l; [done|]. by rewrite Qmult_0_l. }
      rewrite Z.max_l by done. split.
      * rewrite <- Hq at 2. apply Qmult_le_compat_r; [done|lra].
      * rewrite <- Hq at 1. apply Qmult_lt_compat_r; [done|done].
Qed.

Lemma compute_position_size_largest_witness :
  0 < 100 ∧ 0 < 100000 ∧ 0 <= 0.40
  ∧ inject_Z (compute_position_size "AAPL" 100 100000 0.40 17) * 100
    <= position_budget 100000 0.40 17
  ∧ position_budget 100000 0.40 17
    < inject_Z (compute_position_size "AAPL" 100 100000 0.40 17 + 1) * 100.
Proof.
  assert (H1 : 0 < 100) by (vm_compute; reflexivity).
  assert (H2 : 0 < 100000) by (vm_compute; reflexivity).
  assert (H3 : 0 <= 0.40) by (vm_compute; discriminate).
  split; [exact H1|]. split; [exact H2|]. split; [exact H3|].
  exact (proj2 (proj2 (proj2 (compute_position_size_largest "AAPL" 100 100000
                                0.40 17)) H1 H2) H3).
Defined.

(** X20: the live executor sends the preview first and the place request
    only after a preview that returned at least one preview id, both at
    the limit price rounded to cents; the order is placed exactly when both
    requests succeed, and every other outcome is one of three errors. *)
Theorem real_executor_two_phase {R} (session : Session R)
    (action symbol : string) (quantity : Z) (price : Q) :
  ((_execute session action symbol quantity price).2
   = [PreviewCall symbol action quantity (Py.round price 2)]
   ∨ ∃ ids, ids ≠ []
       ∧ preview_order session symbol action quantity (Py.round price 2)
         = Some ids
       ∧ (_execute session action symbol quantity price).2
         = [PreviewCall symbol action quantity (Py.round price 2);
            PlaceCall ids symbol action quantity (Py.round price 2)])
  ∧ (∀ result,
       (_execute session action symbol quantity price).1
       = Placed action symbol quantity price result
       ↔ ∃ ids, ids ≠ []
           ∧ preview_order session symbol action quantity (Py.round price 2)
             = Some ids
           ∧ place_order session ids symbol action quantity
                         (Py.round price 2) = Some result)
  ∧ (∀ error,
       (_execute session action symbol quantity price).1 = Error error →
       error ∈ executor_errors).
Proof.
  unfold _execute, executor_errors.
  destruct (preview_order session symbol action quantity (Py.round price 2))
    as [[|id ids]|] eqn:Hprev; cbn [fst snd].
  - split; [by left|]. split.
    + intros result. split; [done|]. by intros (ids & Hne & [= <-] & _).
    + intros error [= <-]. set_solver.
  - destruct (place_order session (id :: ids) symbol action quantity
                          (Py.round price 2)) as [result|] eqn:Hplace;
      cbn [fst snd app].
    + split; [right; by exists (id :: ids)|]. split.
      * intros result'. split.
        -- intros [= <-]. by exists (id :: ids).
        -- intros (ids' & _ & [= <-] & Hp). rewrite Hplace in Hp.
           by injection Hp as <-.
      * done.
    + split; [right; by exists (id :: ids)|]. split.
      * intros result'. split; [done|].
        intros (ids' & _ & [= <-] & Hp). by rewrite Hplace in Hp.
      * intros error [= <-]. set_solver.
  - split; [by left|]. split.
    + intros result. split; [done|]. by intros (ids & _ & [=] & _).
    + intros error [= <-]. set_solver.
Qed.

Lemma real_executor_two_phase_witness :
  (_execute example_session "BUY" "AAPL" 3 100.005).1 = Error "place_failed"
  ∧ "place_failed" ∈ executor_errors.
Proof.
  assert (H : (_execute example_session "BUY" "AAPL" 3 100.005).1
              = Error "place_failed") by (vm_compute; reflexivity).
  split; [exact H|].
  exact (proj2 (proj2 (real_executor_two_phase example_session "BUY" "AAPL" 3
                         100.005)) "place_failed" H).
Defined.

End OrderExecutorMore.

(** ** Portfolio tracker, continued *)

Section PortfolioTrackerMore.
Import Config RiskManager OrderExecutor PortfolioTracker Main.

Lemma holdings_value_insert (hs : gmap string Holding) (sym : string)
    (h : Holding) :
  holdings_value (<[sym := h]> hs)
  == worth h + holdings_value (delete sym hs).
Proof.
  rewrite <- (insert_delete_eq hs). unfold holdings_value, Py.values.
  rewrite (sum_perm _ ((λ h, inject_Z (qty h) * avg_cost h)
                         <$> ((sym, h) :: map_to_list (delete sym hs)).*2)).
  - cbn [fmap list_fmap snd]. apply sum_cons.
  - apply fmap_Permutation, fmap_Permutation, map_to_list_insert,
      lookup_delete_eq.
Qed.

Lemma holdings_value_delete (hs : gmap string Holding) (sym : string)
    (h : Holding) :
  hs !! sym = Some h →
  holdings_value hs == worth h + holdings_value (delete sym hs).
Proof.
  intros E. unfold holdings_value, Py.values.
  rewrite <- (sum_perm _ _ (fmap_Permutation _ _ _
                (fmap_Permutation snd _ _ (map_to_list_delete hs sym h E)))).
  cbn [fmap list_fmap snd]. apply sum_cons.
Qed.

(** A trade of a positive quantity keeps every quantity positive. *)
Lemma replay_trade_positive (hs : gmap string Holding) (c : Q) (trade : Trade) :
  (0 < OrderExecutor.quantity trade)%Z → positive_holdings hs →
  positive_holdings (replay_trade (hs, c) trade).1.
Proof.
  intros Hq Hpos. unfold replay_trade, positive_holdings in *.
  destruct (String.eqb (action trade) "BUY").
  - destruct (hs !! symbol trade) as [old|] eqn:E; cbn [fst].
    + apply map_Forall_insert_2; [|done]. cbn [qty].
      apply Hpos in E. lia.
    + by apply map_Forall_insert_2.
  - destruct (String.eqb (action trade) "SELL"); [|done].
    destruct (hs !! symbol trade) as [old|] eqn:E; [|done].
    case_bool_decide; cbn [fst].
    + by apply map_Forall_delete.
    + apply map_Forall_insert_2; [|done]. cbn [qty]. lia.
Qed.

Lemma replay_positive (trades : list Trade) (hs : gmap string Holding) (c : Q) :
  Forall (λ trade, (0 < OrderExecutor.quantity trade)%Z) trades →
  positive_holdings hs → positive_holdings (replay trades (hs, c)).1.
Proof.
  intros Hall. revert hs c.
  induction Hall as [|trade trades Hq _ IH]; intros hs c Hpos; [done|].
  unfold replay. cbn [foldl]. fold (replay trades).
  destruct (replay_trade (hs, c) trade) as [hs' c'] eqn:E.
  apply IH. pose proof (replay_trade_positive hs c trade Hq Hpos) as H.
  by rewrite E in H.
Qed.

Lemma sync_from_sim_log (trades : list Trade) (ic : Q) (w : World) :
  holdings (tracker (sync_from_sim (Log trades) ic w))
  = (replay trades (∅, ic)).1
  ∧ cash (tracker (sync_from_sim (Log trades) ic w))
    = (replay trades (∅, ic)).2
  ∧ total_value (tracker (sync_from_sim (Log trades) ic w))
    = (replay trades (∅, ic)).2 + holdings_value (replay trades (∅, ic)).1.
Proof.
  unfold sync_from_sim. by destruct (replay trades (∅, ic)).
Qed.

(** X21: when every trade of the log has a positive quantity, every
    holding left by the replay has a positive quantity: a position sold
    out is removed, never kept at zero or below. *)
Theorem sync_from_sim_positive_holdings (trades : list Trade)
    (initial_cash : Q) (w : World) (sym : string) (h : Holding) :
  Forall (λ trade, (0 < OrderExecutor.quantity trade)%Z) trades →
  holdings (tracker (sync_from_sim (Log trades) initial_cash w)) !! sym
  = Some h →
  (0 < qty h)%Z.
Proof.
  intros Hall Hh.
  rewrite (proj1 (sync_from_sim_log trades initial_cash w)) in Hh.
  assert (Hpos : positive_holdings (replay trades (∅, initial_cash)).1).
  { apply replay_positive; [done|]. apply map_Forall_empty. }
  by apply Hpos in Hh.
Qed.

Lemma sync_from_sim_positive_holdings_witness :
  Forall (λ trade, (0 < OrderExecutor.quantity trade)%Z) [example_buy]
  ∧ ∃ h, holdings (tracker (sync_from_sim (Log [example_buy]) 100000
                              fresh_world)) !! "AAPL" = Some h
         ∧ (0 < qty h)%Z.
Proof.
  assert (H : Forall (λ trade, (0 < OrderExecutor.quantity trade)%Z)
                [example_buy]).
  { apply Forall_cons; split; [vm_compute; reflexivity | apply Forall_nil_2]. }
  split; [exact H|].
  assert (Hh : ∃ h, holdings (tracker (sync_from_sim (Log [example_buy]) 100000
                                         fresh_world)) !! "AAPL" = Some h).
  { eexists. vm_compute. reflexivity. }
  destruct Hh as [h Hh]. exists h. split; [exact Hh|].
  exact (sync_from_sim_positive_holdings _ _ _ _ _ H Hh).
Defined.

Lemma replay_trade_cash (hs : gmap string Holding) (c : Q) (trade : Trade) :
  (replay_trade (hs, c) trade).2 == c + cash_flow trade.
Proof.
  unfold replay_trade, cash_flow.
  destruct (String.eqb (action trade) "BUY").
  - destruct (hs !! symbol trade); cbn [snd]; ring.
  - destruct (String.eqb (action trade) "SELL"); [|cbn [snd]; ring].
    destruct (hs !! symbol trade); [case_bool_decide|]; cbn [snd]; ring.
Qed.

Lemma replay_cash (trades : list Trade) (hs : gmap string Holding) (c : Q) :
  (replay trades (hs, c)).2 == c + Py.sum (cash_flow <$> trades).
Proof.
  revert hs c. induction trades as [|trade trades IH]; intros hs c.
  - unfold replay. cbn [foldl snd fmap list_fmap]. rewrite sum_nil. ring.
  - unfold replay. cbn [foldl fmap list_fmap]. fold (replay trades).
    pose proof (replay_trade_cash hs c trade) as H.
    destruct (replay_trade (hs, c) trade) as [hs' c']. cbn [snd] in H.
    etransitivity; [apply (IH hs' c')|]. rewrite sum_cons, H. ring.
Qed.

(** X22: the cash after the replay is the initial cash plus the proceeds
    of every SELL less the cost of every BUY of the log, whatever was held
    when each trade was replayed; entries that are neither are ignored. *)
Theorem sync_from_sim_cash (trades : list Trade) (initial_cash : Q)
    (w : World) :
  cash (tracker (sync_from_sim (Log trades) initial_cash w))
  == initial_cash + Py.sum (cash_flow <$> trades).
Proof.
  rewrite (proj1 (proj2 (sync_from_sim_log trades initial_cash w))).
  apply replay_cash.
Qed.

(** A BUY of a positive quantity moves its cost from the cash to the
    holdings. *)
Lemma replay_trade_buy_value (hs : gmap string Holding) (c : Q) (trade : Trade) :
  action trade = "BUY" → (0 < OrderExecutor.quantity trade)%Z →
  positive_holdings hs →
  (replay_trade (hs, c) trade).2 + holdings_value (replay_trade (hs, c) trade).1
  == c + holdings_value hs.
Proof.
  intros Ha Hq Hpos. unfold replay_trade. rewrite Ha.
  cbn [String.eqb Ascii.eqb Bool.eqb].
  destruct (hs !! symbol trade) as [old|] eqn:E; cbn [fst snd].
  - rewrite holdings_value_insert, (holdings_value_delete hs _ old E).
    unfold worth. cbn [qty avg_cost].
    apply Hpos in E. cbn beta in E.
    rewrite bool_decide_eq_true_2 by lia.
    assert (Hne : ¬ inject_Z (qty old + OrderExecutor.quantity trade) == 0).
    { change 0 with (inject_Z 0). rewrite inject_Z_injective. lia. }
    rewrite Qmult_div_r by done. ring.
  - rewrite holdings_value_insert, delete_id by done.
    unfold worth. cbn [qty avg_cost]. ring.
Qed.

(** X23: a log that holds nothing but BUYs of positive quantities leaves
    the total value at the initial cash: the replay values what was
    bought at what was paid for it. *)
Theorem sync_from_sim_buys_keep_value (trades : list Trade)
    (initial_cash : Q) (w : World) :
  Forall (λ trade, action trade = "BUY"
                   ∧ (0 < OrderExecutor.quantity trade)%Z) trades →
  total_value (tracker (sync_from_sim (Log trades) initial_cash w))
  == initial_cash.
Proof.
  intros Hall.
  rewrite (proj2 (proj2 (sync_from_sim_log trades initial_cash w))).
  assert (Hgen : ∀ hs c, positive_holdings hs →
            (replay trades (hs, c)).2 + holdings_value (replay trades (hs, c)).1
            == c + holdings_value hs).
  { induction Hall as [|trade trades [Ha Hq] _ IH]; intros hs c Hpos;
      [reflexivity|].
    unfold replay. cbn [foldl]. fold (replay trades).
    pose proof (replay_trade_buy_value hs c trade Ha Hq Hpos) as Hv.
    pose proof (replay_trade_positive hs c trade Hq Hpos) as Hp.
    destruct (replay_trade (hs, c) trade) as [hs' c']. cbn [fst snd] in *.
    etransitivity; [apply (IH hs' c' Hp)|]. exact Hv. }
  rewrite Hgen by apply map_Forall_empty.
  unfold holdings_value, Py.values. rewrite map_to_list_empty.
  cbn [fmap list_fmap]. rewrite sum_nil. ring.
Qed.

Lemma sync_from_sim_buys_keep_value_witness :
  Forall (λ trade, action trade = "BUY"
                   ∧ (0 < OrderExecutor.quantity trade)%Z)
    [example_buy; example_big_buy; example_buy]
  ∧ total_value (tracker (sync_from_sim
                            (Log [example_buy; example_big_buy; example_buy])
                            100000 fresh_world)) == 100000.
Proof.
  assert (H : Forall (λ trade, action trade = "BUY"
                               ∧ (0 < OrderExecutor.quantity trade)%Z)
                [example_buy; example_big_buy; example_buy]).
  { repeat (apply Forall_cons; split;
            [split; [reflexivity | vm_compute; reflexivity]|]).
    apply Forall_nil_2. }
  split; [exact H|].
  exact (sync_from_sim_buys_keep_value _ 100000 fresh_world H).
Defined.

(** X24: in SIM mode the sell branch of the loop sells the whole position:
    it appends one SELL of the held quantity at the price rounded to
    cents, and the next replay of the log no longer holds the symbol,
    holds every other symbol as before, and has the proceeds in cash.  For
    a symbol that is not held the branch does nothing. *)
Theorem sell_branch_closes_position (now : Z) (sym : string) (price : Q)
    (initial_cash : Q) (trades : list Trade) (wash_tracker : WashSaleTracker)
    (settlement : gmap Z Q) (portfolio : PortfolioState) (pos : Holding) :
  (holdings portfolio = (replay trades (∅, initial_cash)).1 →
   holdings portfolio !! sym = Some pos → (0 < qty pos)%Z →
   (sell_branch now sym price portfolio trades wash_tracker settlement).1.1
   = trades ++ [ {| OrderExecutor.action := "SELL";
                    OrderExecutor.symbol := sym;
                    OrderExecutor.quantity := qty pos;
                    OrderExecutor.price := Py.round price 2 |} ]
   ∧ (replay (sell_branch now sym price portfolio trades wash_tracker
                          settlement).1.1 (∅, initial_cash)).1
     = delete sym (holdings portfolio)
   ∧ (replay (sell_branch now sym price portfolio trades wash_tracker
                          settlement).1.1 (∅, initial_cash)).2
     = (replay trades (∅, initial_cash)).2
       + inject_Z (qty pos) * Py.round price 2)
  ∧ (holdings portfolio !! sym = None →
     sell_branch now sym price portfolio trades wash_tracker settlement
     = (trades, wash_tracker, settlement)).
Proof.
  split.
  - intros Hsync Hpos Hq. unfold sell_branch. rewrite Hpos.
    apply Z.ltb_lt in Hq as Hq'. rewrite Hq'. cbn [fst].
    unfold execute_sell. split; [done|].
    rewrite replay_app. unfold replay at 1 3. cbn [foldl].
    fold (replay trades (∅, initial_cash)).
    destruct (replay trades (∅, initial_cash)) as [hs c] eqn:E.
    cbn [fst snd] in *. subst hs. unfold replay_trade.
    cbn [OrderExecutor.action OrderExecutor.symbol OrderExecutor.quantity
         OrderExecutor.price String.eqb Ascii.eqb Bool.eqb].
    rewrite Hpos. rewrite bool_decide_eq_true_2 by lia. done.
  - intros Hnone. unfold sell_branch. by rewrite Hnone.
Qed.

Lemma sell_branch_closes_position_witness :
  holdings (tracker example_world)
  = (replay [example_buy] (∅, default_initial_cash)).1
  ∧ (∃ pos, holdings (tracker example_world) !! "AAPL" = Some pos
            ∧ (0 < qty pos)%Z
            ∧ (replay (sell_branch example_now "AAPL" 90 (tracker example_world)
                                   [example_buy] example_wash_tracker ∅).1.1
                      (∅, default_initial_cash)).1
              = delete "AAPL" (holdings (tracker example_world))).
Proof.
  assert (H1 : holdings (tracker example_world)
               = (replay [example_buy] (∅, default_initial_cash)).1).
  { exact (proj1 (sync_from_sim_log [example_buy] default_initial_cash
                    fresh_world)). }
  split; [exact H1|].
  assert (Hp : ∃ pos, holdings (tracker example_world) !! "AAPL" = Some pos
                      ∧ (0 < qty pos)%Z).
  { eexists. split; vm_compute; reflexivity. }
  destruct Hp as (pos & H2 & H3). exists pos.
  split; [exact H2|]. split; [exact H3|].
  exact (proj1 (proj2 (proj1 (sell_branch_closes_position example_now "AAPL" 90
                  default_initial_cash [example_buy] example_wash_tracker ∅
                  (tracker example_world) pos) H1 H2 H3))).
Defined.

(** The loop of [update_market_values], from any accumulator. *)
Lemma market_value_loop (live_prices : gmap string Q)
    (l : list (string * Holding)) (a : Q) :
  foldl (λ holdings_value '(sym, holding),
           match live_prices !! sym with
           | Some price => holdings_value + inject_Z (qty holding) * price
           | None => holdings_value + inject_Z (qty holding) * avg_cost holding
           end) a l
  == a + Py.sum ((λ item : string * Holding,
                    inject_Z (qty item.2)
                    * default (avg_cost item.2) (live_prices !! item.1))
                   <$> l).
Proof.
  revert a. induction l as [|[sym h] l IH]; intros a; cbn [foldl fmap list_fmap].
  - rewrite sum_nil. ring.
  - rewrite sum_cons. cbn [fst snd].
    destruct (live_prices !! sym); rewrite IH; cbn [default from_option id]; ring.
Qed.

(** X25: when no held symbol has a live quote, [update_market_values]
    after a replay gives the total value the replay gave: cash plus the
    holdings at average cost. *)
Theorem update_market_values_without_quotes (live_prices : gmap string Q)
    (trades_file : TradesFile) (initial_cash : Q) (w : World) :
  (∀ sym, sym ∈ get_held_symbols (sync_from_sim trades_file initial_cash w) →
          live_prices !! sym = None) →
  total_value (tracker (update_market_values live_prices
                          (sync_from_sim trades_file initial_cash w)))
  == total_value (tracker (sync_from_sim trades_file initial_cash w)).
Proof.
  intros Hq.
  assert (Hgen : ∀ w', (∀ sym, sym ∈ get_held_symbols w' →
                               live_prices !! sym = None) →
            total_value (tracker (update_market_values live_prices w'))
            == cash (tracker w') + holdings_value (holdings (tracker w'))).
  { intros w' Hw. unfold update_market_values. cbn [tracker total_value].
    rewrite market_value_loop. unfold holdings_value, Py.values.
    rewrite <- list_fmap_compose.
    assert (Hext : ∀ l : list (string * Holding),
               Forall (λ item, live_prices !! item.1 = None) l →
               Py.sum ((λ item : string * Holding,
                          inject_Z (qty item.2)
                          * default (avg_cost item.2) (live_prices !! item.1))
                         <$> l)
               == Py.sum ((λ h, inject_Z (qty h) * avg_cost h) ∘ snd <$> l)).
    { induction 1 as [|[sym h] l Hx _ IH]; cbn [fmap list_fmap];
        [reflexivity|].
      rewrite !sum_cons, IH. cbn [fst snd compose] in *. rewrite Hx.
      reflexivity. }
    rewrite Hext; [ring|]. apply Forall_forall. intros [sym h] Hin.
    apply elem_of_map_to_list in Hin. apply Hw. unfold get_held_symbols.
    apply elem_of_dom. by exists h. }
  rewrite Hgen by done.
  destruct trades_file; unfold sync_from_sim;
    try destruct (replay _ _) as [hs c]; cbn [tracker save cash holdings
                                               total_value];
    try reflexivity.
  unfold holdings_value, Py.values. rewrite map_to_list_empty.
  cbn [fmap list_fmap]. rewrite sum_nil. ring.
Qed.

Lemma update_market_values_without_quotes_witness :
  (∀ sym, sym ∈ get_held_symbols example_world →
          (<["XOM" := 55]> ∅ : gmap string Q) !! sym = None)
  ∧ total_value (tracker (update_market_values (<["XOM" := 55]> ∅)
                            example_world))
    == total_value (tracker example_world).
Proof.
  assert (H : ∀ sym, sym ∈ get_held_symbols example_world →
                     (<["XOM" := 55]> ∅ : gmap string Q) !! sym = None).
  { intros sym Hs. apply lookup_insert_None. split; [apply lookup_empty|].
    intros <-. unfold get_held_symbols in Hs.
    apply elem_of_dom in Hs as [h Hh]. vm_compute in Hh. discriminate Hh. }
  split; [exact H|].
  exact (update_market_values_without_quotes (<["XOM" := 55]> ∅)
           (Log [example_buy]) default_initial_cash fresh_world H).
Defined.

(** The loop of [sync_from_api], from any dict of holdings. *)
Lemma sync_from_api_loop (positions : list Position)
    (acc : gmap string Holding) (sym : string) :
  is_Some (foldl (λ holdings pos,
                    match position_symbol pos with
                    | None | Some EmptyString => holdings
                    | Some sym =>
                        <[sym := {| qty := default 0%Z (quantity pos);
                                    avg_cost := default 0 (pricePaid pos);
                                    market_value :=
                                      Some (default 0 (marketValue pos));
                                    total_gain :=
                                      Some (default 0 (totalGain pos)) |}]>
                          holdings
                    end) acc positions !! sym)
  ↔ is_Some (acc !! sym)
    ∨ sym ≠ EmptyString
      ∧ ∃ pos, pos ∈ positions ∧ position_symbol pos = Some sym.
Proof.
  revert acc. induction positions as [|pos positions IH]; intros acc;
    cbn [foldl].
  - split; [by left|]. intros [H|(_ & pos & Hin & _)]; [done|].
    by apply elem_of_nil in Hin.
  - rewrite IH. clear IH. split.
    + intros [H|(Hne & pos' & Hin & Hs)].
      * destruct (position_symbol pos) as [[|a s']|] eqn:E; [by left| |by left].
        destruct (decide (String a s' = sym)) as [<-|Hd].
        -- right. split; [done|]. exists pos. split; [by left|done].
        -- left. by rewrite lookup_insert_ne in H.
      * right. split; [done|]. exists pos'. split; [by right|done].
    + intros [H|(Hne & pos' & Hin & Hs)].
      * left. destruct (position_symbol pos) as [[|a s']|]; [done| |done].
        destruct (decide (String a s' = sym)) as [<-|Hd].
        -- rewrite lookup_insert_eq. by eexists.
        -- by rewrite lookup_insert_ne.
      * apply elem_of_cons in Hin as [->|Hin].
        -- left. rewrite Hs. destruct sym as [|a s']; [done|].
           rewrite lookup_insert_eq. by eexists.
        -- right. split; [done|]. by exists pos'.
Qed.

(** X26: after a sync from the broker the holdings are the symbols the
    positions name: a position with no symbol, or an empty one, is left
    out, and every other position gives a holding; the cash and the total
    value are those of the balance, 0 when the balance lacks them. *)
Theorem sync_from_api_holdings (balance : Balance) (positions : list Position)
    (w : World) (sym : string) :
  (sym ∈ get_held_symbols (sync_from_api balance positions w)
   ↔ sym ≠ EmptyString
     ∧ ∃ pos, pos ∈ positions ∧ position_symbol pos = Some sym)
  ∧ cash (tracker (sync_from_api balance positions w))
    = default 0 (cashBuyingPower balance)
  ∧ total_value (tracker (sync_from_api balance positions w))
    = default 0 (totalAccountValue balance).
Proof.
  split; [|done].
  unfold get_held_symbols, sync_from_api. cbn [tracker save holdings].
  rewrite elem_of_dom, sync_from_api_loop. rewrite lookup_empty.
  split; [|by right]. intros [[? ?]|H]; done.
Qed.

End PortfolioTrackerMore.

(** ** Quote batches *)

Section ApiWrapperFacts.
Import Config ApiWrapper.

Lemma chunks_concat {A} (step m : nat) (l : list A) :
  concat ((λ k, take step (drop (k * step) l)) <$> seq 0 m)
  = take (m * step) l.
Proof.
  induction m as [|m IH]; [done|].
  rewrite seq_S, fmap_app, concat_app, IH. cbn [fmap list_fmap concat].
  rewrite app_nil_r, Nat.add_0_l, take_take_drop. f_equal. lia.
Qed.

(** The number of batches is the least that covers the list. *)
Lemma batch_count_bounds (len step : nat) :
  (0 < step)%nat →
  (len ≤ (len + step - 1) / step * step)%nat
  ∧ (∀ k, (k < (len + step - 1) / step)%nat → (k * step < len)%nat).
Proof.
  intros Hs.
  pose proof (Nat.div_mod_eq (len + step - 1) step) as Hd.
  pose proof (Nat.mod_upper_bound (len + step - 1) step) as Hm.
  split; [nia|]. intros k Hk. nia.
Qed.

(** X27: [get_quotes] asks for every symbol once: the batches, one after
    the other, are the list of symbols, and every batch holds at least one
    symbol and at most QUOTE_BATCH_SIZE. *)
Theorem quote_batches_partition (symbols : list string) :
  concat (quote_batches symbols) = symbols
  ∧ Forall (λ batch, (0 < length batch ≤ QUOTE_BATCH_SIZE)%nat)
      (quote_batches symbols).
Proof.
  unfold quote_batches, Py.range_step. rewrite <- list_fmap_compose.
  destruct (batch_count_bounds (length symbols) QUOTE_BATCH_SIZE) as [H1 H2];
    [unfold QUOTE_BATCH_SIZE; lia|].
  split.
  - etransitivity; [exact (chunks_concat QUOTE_BATCH_SIZE _ symbols)|].
    by apply take_ge.
  - apply Forall_fmap, Forall_forall. intros k Hk.
    apply elem_of_seq in Hk. unfold compose.
    rewrite length_take, length_drop. specialize (H2 k). lia.
Qed.

(** The inner loop of [get_quotes], from any dict. *)
Lemma quote_data_loop (quote_data : list QuoteData)
    (acc : gmap string QuoteData) (sym : string) :
  is_Some (foldl (λ result qd,
                    match Product_symbol qd with
                    | None | Some EmptyString => result
                    | Some sym => <[sym := qd]> result
                    end) acc quote_data !! sym)
  ↔ is_Some (acc !! sym)
    ∨ sym ≠ EmptyString
      ∧ ∃ qd, qd ∈ quote_data ∧ Product_symbol qd = Some sym.
Proof.
  revert acc. induction quote_data as [|qd quote_data IH]; intros acc;
    cbn [foldl].
  - split; [by left|]. intros [H|(_ & qd & Hin & _)]; [done|].
    by apply elem_of_nil in Hin.
  - rewrite IH. clear IH. split.
    + intros [H|(Hne & qd' & Hin & Hs)].
      * destruct (Product_symbol qd) as [[|a s']|] eqn:E; [by left| |by left].
        destruct (decide (String a s' = sym)) as [<-|Hd].
        -- right. split; [done|]. exists qd. split; [by left|done].
        -- left. by rewrite lookup_insert_ne in H.
      * right. split; [done|]. exists qd'. split; [by right|done].
    + intros [H|(Hne & qd' & Hin & Hs)].
      * left. destruct (Product_symbol qd) as [[|a s']|]; [done| |done].
        destruct (decide (String a s' = sym)) as [<-|Hd].
        -- rewrite lookup_insert_eq. by eexists.
        -- by rewrite lookup_insert_ne.
      * apply elem_of_cons in Hin as [->|Hin].
        -- left. rewrite Hs. destruct sym as [|a s']; [done|].
           rewrite lookup_insert_eq. by eexists.
        -- right. split; [done|]. by exists qd'.
Qed.

(** The outer loop of [get_quotes], from any dict and any batches. *)
Lemma quote_batch_loop (get : list string → option (list QuoteData))
    (batches : list (list string)) (acc : gmap string QuoteData)
    (sym : string) :
  is_Some (foldl (λ result batch,
                    match get batch with
                    | None => result
                    | Some quote_data =>
                        foldl (λ result qd,
                                 match Product_symbol qd with
                                 | None | Some EmptyString => result
                                 | Some sym => <[sym := qd]> result
                                 end) result quote_data
                    end) acc batches !! sym)
  ↔ is_Some (acc !! sym)
    ∨ sym ≠ EmptyString
      ∧ ∃ batch quote_data qd,
          batch ∈ batches ∧ get batch = Some quote_data
          ∧ qd ∈ quote_data ∧ Product_symbol qd = Some sym.
Proof.
  revert acc. induction batches as [|batch batches IH]; intros acc;
    cbn [foldl].
  - split; [by left|]. intros [H|(_ & b & ? & ? & Hin & _)]; [done|].
    by apply elem_of_nil in Hin.
  - rewrite IH. clear IH. split.
    + intros [H|(Hne & b & qds & qd & Hin & Hg & Hq & Hs)].
      * destruct (get batch) as [qds|] eqn:E; [|by left].
        apply quote_data_loop in H as [H|(Hne & qd & Hq & Hs)]; [by left|].
        right. split; [done|]. exists batch, qds, qd.
        split; [by left|done].
      * right. split; [done|]. exists b, qds, qd. split; [by right|done].
    + intros [H|(Hne & b & qds & qd & Hin & Hg & Hq & Hs)].
      * left. destruct (get batch) as [qds|]; [|done].
        apply quote_data_loop. by left.
      * apply elem_of_cons in Hin as [->|Hin].
        -- left. rewrite Hg. apply quote_data_loop. right.
           split; [done|]. by exists qd.
        -- right. split; [done|]. by exists b, qds, qd.
Qed.

(** X28: [get_quotes] returns a quote for exactly the symbols that some
    answered batch names: a batch whose request fails costs its own quotes
    and no others, and a quote without symbol is dropped. *)
Theorem get_quotes_symbols (get : list string → option (list QuoteData))
    (symbols : list string) (sym : string) :
  is_Some (get_quotes get symbols !! sym)
  ↔ sym ≠ EmptyString
    ∧ ∃ batch quote_data qd,
        batch ∈ quote_batches symbols ∧ get batch = Some quote_data
        ∧ qd ∈ quote_data ∧ Product_symbol qd = Some sym.
Proof.
  unfold get_quotes. rewrite quote_batch_loop, lookup_empty.
  split; [|by right]. intros [[? ?]|H]; done.
Qed.

End ApiWrapperFacts.
